(** * Float64Type of terraform-plugin-framework (types/basetypes/float64_type.go)

    A shallow embedding of [Float64Type] and of the parts of its
    collaborators that its methods call: Go's [float64], [math/big.Float]
    with its [Float64] narrowing, [tftypes.Value] with [Type], [IsKnown],
    [IsNull] and [As], the diagnostics collection and attribute paths. *)

From Stdlib Require Import ZArith Bool List String Ascii Lia DecimalString.
Import ListNotations.
Local Open Scope Z_scope.
Set Warnings "-register-all".

(** ** Go's float64

    An IEEE-754 binary64 value, by class.  A finite non-zero value is
    [(-1)^neg * m * 2^e]; the bit pattern fixes one [(m, e)] per value, which
    [valid] states: a normal number has a 53-bit [m], a denormal one has
    [e = -1074] and at most 52 bits. *)
Module math.

Inductive float64 : Type :=
| F64zero (neg : bool)
| F64inf (neg : bool)
| F64nan
| F64finite (neg : bool) (m : positive) (e : Z).

Definition mbits : Z := 52.
Definition ebits : Z := 11.
Definition bias : Z := 1023.
Definition dmin : Z := 1 - bias - mbits.
Definition emin : Z := 1 - bias.
Definition emax : Z := bias.

Definition valid (f : float64) : bool :=
  match f with
  | F64finite _ m e =>
      let n := Z.pos (Pos.size m) in
      ((n =? mbits + 1) && (dmin <=? e) && (e <=? emax - mbits))
      || ((n <=? mbits) && (e =? dmin))
  | _ => true
  end.

(** [math.Float64frombits(sign | bexp<<52 | mant)], from the three fields of
    the bit pattern: [bexp] is the biased exponent (0 to 2047) and [mant] the
    52 stored mantissa bits. *)
Definition Float64frombits (sign : bool) (bexp mant : Z) : float64 :=
  if bexp =? 0 then
    match mant with
    | Z.pos m => F64finite sign m dmin
    | _ => F64zero sign
    end
  else if bexp =? 2 ^ ebits - 1 then
    (if mant =? 0 then F64inf sign else F64nan)
  else
    F64finite sign (Z.to_pos (2 ^ mbits + mant)) (bexp - bias - mbits).

Definition SmallestNonzeroFloat64 : float64 := F64finite false 1 dmin.
Definition Inf (neg : bool) : float64 := F64inf neg.
Definition Neg (f : float64) : float64 :=
  match f with
  | F64zero s => F64zero (negb s)
  | F64inf s => F64inf (negb s)
  | F64nan => F64nan
  | F64finite s m e => F64finite (negb s) m e
  end.

(** Go's [==] on float64: NaN equals nothing, the two zeros are equal. *)
Definition eqb (a b : float64) : bool :=
  match a, b with
  | F64zero _, F64zero _ => true
  | F64inf s, F64inf s' => Bool.eqb s s'
  | F64finite s m e, F64finite s' m' e' =>
      Bool.eqb s s' && Pos.eqb m m' && Z.eqb e e'
  | _, _ => false
  end.

Definition IsNaN (f : float64) : bool :=
  match f with F64nan => true | _ => false end.

End math.

(** ** math/big.Float

    A [Float] is [±0], [±Inf] or [(-1)^neg * 0.mant * 2^exp] with
    [0.5 <= 0.mant < 1]: the mantissa is the integer [mant] read as a binary
    fraction whose first bit is its most significant one, so the value is
    [mant * 2^(exp - size mant)]. *)
Module big.

Inductive Accuracy : Type := Below | Exact | Above.

(** [Accuracy] is an int8: Below = -1, Exact = 0, Above = +1. *)
Definition Accuracy_int (a : Accuracy) : Z :=
  match a with Below => -1 | Exact => 0 | Above => 1 end.

Definition makeAcc (above : bool) : Accuracy :=
  if above then Above else Below.

Inductive Float : Type :=
| Fzero (neg : bool)
| Finf (neg : bool)
| Ffinite (neg : bool) (mant : positive) (exp : Z).

Definition MaxExp : Z := 2147483647.

Definition size (m : positive) : Z := Z.pos (Pos.size m).

(** [x.mant.sticky(i)]: 1 when a bit below position [i] is set. *)
Definition sticky (m : positive) (i : Z) : Z :=
  if Z.pos m mod 2 ^ i =? 0 then 0 else 1.

(** [Float.round] in mode ToNearestEven, for a finite [x] and a target
    precision of [prec > 0] bits. *)
Definition round (prec : Z) (neg : bool) (mant : positive) (exp : Z)
  : Float * Accuracy :=
  let bits := size mant in
  if bits <=? prec then (Ffinite neg mant exp, Exact)
  else
    let r := bits - prec - 1 in
    let rbit := Z.b2z (Z.testbit (Z.pos mant) r) in
    let sbit := sticky mant r in
    let q := Z.shiftr (Z.pos mant) (r + 1) in
    if Z.lor rbit sbit =? 0 then (Ffinite neg (Z.to_pos q) exp, Exact)
    else
      let inc := negb (rbit =? 0) && (negb (sbit =? 0) || Z.odd q) in
      let acc := makeAcc (xorb inc neg) in
      if inc then
        if q + 1 =? 2 ^ prec then
          (if exp >=? MaxExp then (Finf neg, acc)
           else (Ffinite neg (Z.to_pos (2 ^ (prec - 1))) (exp + 1), acc))
        else (Ffinite neg (Z.to_pos (q + 1)) exp, acc)
      else (Ffinite neg (Z.to_pos q) exp, acc).

(** The [k] leading bits of a mantissa ([msb64(r.mant) >> (64 - k)]). *)
Definition topbits (k : Z) (m : positive) : Z :=
  let n := size m in
  if n <=? k then Z.shiftl (Z.pos m) (k - n) else Z.shiftr (Z.pos m) (n - k).

(** [Float.Float64]. *)
Definition Float64 (x : Float) : math.float64 * Accuracy :=
  match x with
  | Fzero neg => (math.F64zero neg, Exact)
  | Finf neg => (math.Inf neg, Exact)
  | Ffinite neg mant exp =>
      let e := exp - 1 in
      let p := if e <? math.emin then math.mbits + 1 - math.emin + e
               else math.mbits + 1 in
      if (e <? math.emin)
         && ((p <? 0) || ((p =? 0) && (sticky mant (size mant - 1) =? 0)))
      then
        (if neg then (math.F64zero true, Above) else (math.F64zero false, Below))
      else if (e <? math.emin) && (p =? 0) then
        (if neg then (math.Neg math.SmallestNonzeroFloat64, Below)
         else (math.SmallestNonzeroFloat64, Above))
      else
        let '(r, acc) := round p neg mant exp in
        let overflow :=
          if neg then (math.Inf true, Below) else (math.Inf false, Above) in
        match r with
        | Ffinite _ rmant rexp =>
            let e := rexp - 1 in
            if e >? math.emax then overflow
            else if e <? math.emin then
              let p := math.mbits + 1 - math.emin + e in
              (math.Float64frombits neg 0 (topbits p rmant), acc)
            else
              (math.Float64frombits neg (e + math.bias)
                 (Z.land (topbits (math.mbits + 1) rmant) (2 ^ math.mbits - 1)),
               acc)
        | _ => overflow
        end
  end.

(** [big.NewFloat(x)]: the Float with the value of [x]; it panics with
    ErrNaN on a NaN, which is [None] here. *)
Definition NewFloat (x : math.float64) : option Float :=
  match x with
  | math.F64zero s => Some (Fzero s)
  | math.F64inf s => Some (Finf s)
  | math.F64nan => None
  | math.F64finite s m e => Some (Ffinite s m (e + size m))
  end.

End big.

(** ** math/big: Float.String (ftoa.go, decimal.go)

    [String] is [Text('g', 10)]: the exact decimal expansion of the number,
    rounded to ten significant digits (half to even) and written in %e form
    when the decimal exponent is below -4 or not below the digits kept, in
    %f form otherwise. *)
Module ftoa.

(** A multiprecision decimal, [0.mant * 10^exp]; [mant] holds digit
    characters and has no trailing zero. *)
Record decimal : Type := mkDecimal { mant : list ascii; exp : Z }.

Definition len (s : list ascii) : Z := Z.of_nat (List.length s).

Definition is_zero_digit (c : ascii) : bool := Ascii.eqb c "0".

Fixpoint drop_leading (f : ascii -> bool) (s : list ascii) : list ascii :=
  match s with
  | c :: rest => if f c then drop_leading f rest else s
  | [] => []
  end.

Definition drop_trailing (f : ascii -> bool) (s : list ascii) : list ascii :=
  rev (drop_leading f (rev s)).

(** [m.utoa(10)] and [strconv.AppendInt(_, n, 10)] for a positive number. *)
Definition utoa (m : positive) : list ascii :=
  list_ascii_of_string (NilEmpty.string_of_uint (Pos.to_uint m)).

(** [trim]: drop the trailing zeros; a decimal left without digits is 0. *)
Definition trim (d : decimal) : decimal :=
  let s := drop_trailing is_zero_digit (mant d) in
  mkDecimal s (match s with [] => 0 | _ => exp d end).

(** [d.init(m, shift)]: the decimal of [m * 2^shift].  A left shift is done
    in binary; a right shift by [s] bits divides the decimal by [2^s], which
    leaves the digits of [m * 5^s] with the point moved [s] places. *)
Definition init (m : positive) (shift : Z) : decimal :=
  let s :=
    if 0 <=? shift then utoa (Z.to_pos (Z.pos m * 2 ^ shift))
    else utoa (Z.to_pos (Z.pos m * 5 ^ (- shift))) in
  let e := if 0 <=? shift then len s else len s + shift in
  mkDecimal (drop_trailing is_zero_digit s) e.

Definition at_ (d : decimal) (i : Z) : ascii :=
  if (0 <=? i) && (i <? len (mant d)) then nth (Z.to_nat i) (mant d) "0"%char
  else "0"%char.

Definition digit_ge (c : ascii) (k : nat) : bool :=
  (k + 48 <=? nat_of_ascii c)%nat.

(** [shouldRoundUp]: an exact half goes to the even digit. *)
Definition shouldRoundUp (d : decimal) (n : Z) : bool :=
  if Ascii.eqb (at_ d n) "5" && (n + 1 =? len (mant d)) then
    (0 <? n) && Nat.odd (nat_of_ascii (at_ d (n - 1)) - 48)
  else digit_ge (at_ d n) 5.

(** [roundUp]: skip the nines before position [n], then add one. *)
Definition roundUp (d : decimal) (n : Z) : decimal :=
  if (n <? 0) || (len (mant d) <=? n) then d
  else
    let kept := drop_trailing (fun c => digit_ge c 9)
                  (firstn (Z.to_nat n) (mant d)) in
    match rev kept with
    | [] => mkDecimal ["1"%char] (exp d + 1)
    | last :: before =>
        mkDecimal (rev (ascii_of_nat (S (nat_of_ascii last)) :: before)) (exp d)
    end.

Definition roundDown (d : decimal) (n : Z) : decimal :=
  if (n <? 0) || (len (mant d) <=? n) then d
  else trim (mkDecimal (firstn (Z.to_nat n) (mant d)) (exp d)).

Definition round (d : decimal) (n : Z) : decimal :=
  if (n <? 0) || (len (mant d) <=? n) then d
  else if shouldRoundUp d n then roundUp d n else roundDown d n.

Definition zeros (n : Z) : list ascii := repeat "0"%char (Z.to_nat n).

(** [strconv.AppendInt] of a number that is not negative. *)
Definition itoa (n : Z) : list ascii :=
  match n with
  | Z.pos p => utoa p
  | _ => ["0"%char]
  end.

(** [fmtE]: %e, d.ddddde±dd. *)
Definition fmtE (prec : Z) (d : decimal) : list ascii :=
  let first := match mant d with c :: _ => c | [] => "0"%char end in
  let m := Z.min (len (mant d)) (prec + 1) in
  let more :=
    if 0 <? prec then
      "."%char :: (if 1 <? m
                   then skipn 1 (firstn (Z.to_nat m) (mant d))
                        ++ zeros (prec + 1 - m)
                   else zeros prec)
    else [] in
  let e := match mant d with [] => 0 | _ => exp d - 1 end in
  let sign := if e <? 0 then "-"%char else "+"%char in
  let a := Z.abs e in
  first :: more ++ "e"%char :: sign
        :: (if a <? 10 then ["0"%char] else []) ++ itoa a.

Fixpoint fraction (d : decimal) (from : Z) (count : nat) : list ascii :=
  match count with
  | O => []
  | S k => at_ d from :: fraction d (from + 1) k
  end.

(** [fmtF]: %f, ddddddd.ddddd. *)
Definition fmtF (prec : Z) (d : decimal) : list ascii :=
  let int :=
    if 0 <? exp d then
      let m := Z.min (len (mant d)) (exp d) in
      firstn (Z.to_nat m) (mant d) ++ zeros (exp d - m)
    else ["0"%char] in
  int ++ (if 0 <? prec then "."%char :: fraction d (exp d) (Z.to_nat prec)
          else []).

(** [x.Text('g', prec)] for [prec > 0]. *)
Definition Text_g (x : big.Float) (prec : Z) : string :=
  string_of_list_ascii
    match x with
    | big.Finf neg => if neg then list_ascii_of_string "-Inf"
                      else list_ascii_of_string "+Inf"
    | _ =>
        let neg := match x with
                   | big.Fzero s => s
                   | big.Ffinite s _ _ => s
                   | big.Finf s => s
                   end in
        let d0 := match x with
                  | big.Ffinite _ m e => init m (e - big.size m)
                  | _ => mkDecimal [] 0
                  end in
        let d := round d0 prec in
        let eprec :=
          if (len (mant d) <? prec) && (exp d <=? len (mant d))
          then len (mant d) else prec in
        let e := exp d - 1 in
        (if neg then ["-"%char] else [])
        ++ (if (e <? -4) || (eprec <=? e) then
              fmtE (Z.min prec (len (mant d)) - 1) d
            else
              let prec' := if exp d <? prec then len (mant d) else prec in
              fmtF (Z.max (prec' - exp d) 0) d)
    end.

Definition String (x : big.Float) : string := Text_g x 10.

End ftoa.

(** ** context.Context: passed to every method, read by none of them. *)
Module context.

Inductive Context : Type :=
| Background
| WithValue (parent : Context) (key val : string).

End context.

(** ** tftypes: the wire types and wire values of terraform-plugin-go *)
Module tftypes.

Inductive Type_ : Type :=
| Bool
| Number
| String
| DynamicPseudoType
| List (ElementType : Type_)
| Set_ (ElementType : Type_)
| Map (ElementType : Type_)
| Tuple (ElementTypes : list Type_)
| Object (AttributeTypes : list (string * Type_)).

(** [t.Equal(tftypes.Number)]: each [Equal] first asserts its argument to the
    receiver's own Go type, and the primitives then compare names, so only the
    primitive Number equals Number. *)
Definition Equal_Number (t : Type_) : bool :=
  match t with
  | Number => true
  | _ => false
  end.

(** A [Value] pairs a wire type, nil in the zero Value, with a payload:
    nil (null), the unknown marker, or Go data. *)
Inductive Value : Type :=
| mkValue (typ : option Type_) (value : payload)
with payload : Type :=
| Vnil
| Vunknown
| Vbool (b : bool)
| Vnumber (f : big.Float)
| Vstring (s : string)
| Vlist (elems : list Value)
| Vmap (entries : list (string * Value)).

Definition Type' (v : Value) : option Type_ :=
  match v with mkValue t _ => t end.

Definition value_of (v : Value) : payload :=
  match v with mkValue _ p => p end.

Definition IsKnown (v : Value) : bool :=
  match value_of v with Vunknown => false | _ => true end.

Definition IsNull (v : Value) : bool :=
  match value_of v with Vnil => true | _ => false end.

(** [NewValue] panics unless the Go data suits the type; for Number the
    data is nil, the unknown marker or a big.Float. *)
Definition number_payload (v : Value) : bool :=
  match value_of v with
  | Vnil | Vunknown | Vnumber _ => true
  | _ => false
  end.

(** The errors of [Value.As] into a big.Float:
    "unmarshaling unknown values is not supported" and
    "can't unmarshal <type> into *big.Float, expected *big.Float". *)
Inductive AsError : Type :=
| UnmarshalUnknown
| CantUnmarshal (typ : option Type_).

(** [in.As(&value)] with [var value *big.Float].  An unknown value is
    refused before the target is looked at; on a null value the pointer stays
    nil; otherwise the pointer is set to a fresh [big.NewFloat(0)], which
    receives a copy of the payload when that is a big.Float. *)
Definition As (v : Value) : option big.Float * option AsError :=
  if negb (IsKnown v) then (None, Some UnmarshalUnknown)
  else if IsNull v then (None, None)
  else
    match value_of v with
    | Vnumber f => (Some f, None)
    | _ => (Some (big.Fzero false), Some (CantUnmarshal (Type' v)))
    end.

End tftypes.

(** ** fmt: formatted text, kept as the format and its operands *)
Module fmt.

(** What the methods of Float64Type hand to a formatting verb. *)
Inductive arg : Type :=
| OfFloat (f : option big.Float)
| OfValue (v : tftypes.Value)
| OfAsError (e : tftypes.AsError).

(** A Go string built with [+] from literals and [Sprintf] results. *)
Inductive piece : Type :=
| Lit (s : string)
| Sprintf (format : string) (args : list arg).

Definition text : Type := list piece.

End fmt.

(** The [error] values that reach a caller of Float64Type. *)
Inductive error : Type :=
| ErrAs (e : tftypes.AsError)
| Errorf (format : string) (args : list fmt.arg).

(** ** attr: value states, values and type descriptors *)
Module attr.

Inductive ValueState : Type :=
| ValueStateNull
| ValueStateUnknown
| ValueStateKnown.

(** The attr.Value implementations that hold primitive data. *)
Inductive Value : Type :=
| BoolValue (state : ValueState) (value : bool)
| Float64Value (state : ValueState) (value : math.float64)
| Int64Value (state : ValueState) (value : Z)
| NumberValue (state : ValueState) (value : option big.Float)
| StringValue (state : ValueState) (value : string).

(** The Go type held by an attr.Type interface value: a base type of the
    framework, or a type declared elsewhere, possibly embedding one. *)
Inductive Type_ : Type :=
| BoolType
| Float64Type
| Int64Type
| NumberType
| StringType
| DynamicType
| ListType (ElemType : Type_)
| SetType (ElemType : Type_)
| MapType (ElemType : Type_)
| ObjectType (AttrTypes : list (string * Type_))
| TupleType (ElemTypes : list Type_)
| CustomType (name : string) (embedded : option Type_).

End attr.

(** ** path: attribute paths *)
Module path.

Inductive PathStep : Type :=
| PathStepAttributeName (name : string)
| PathStepElementKeyInt (key : Z)
| PathStepElementKeyString (key : string)
| PathStepElementKeyValue (key : attr.Value).

Definition Path : Type := list PathStep.

Definition Root (name : string) : Path := [PathStepAttributeName name].

End path.

(** ** diag: diagnostics *)
Module diag.

Inductive Severity : Type := SeverityError | SeverityWarning.

Record Diagnostic : Type := mkDiagnostic {
  severity : Severity;
  summary : string;
  detail : fmt.text;
  attribute_path : option path.Path
}.

Definition Diagnostics : Type := list Diagnostic.

(** Modelled from the spec: package diag is not among the sources.
    Diagnostics are an "ordered sequence of {severity, summary, detail,
    attribute path}", a collector that "this core only appends" to:
    [AddAttributeError] appends one Error diagnostic attributed to the path. *)
Definition AddAttributeError (diags : Diagnostics) (p : path.Path)
    (summary : string) (detail : fmt.text) : Diagnostics :=
  diags ++ [mkDiagnostic SeverityError summary detail (Some p)].

Definition HasError (diags : Diagnostics) : bool :=
  existsb (fun d => match severity d with SeverityError => true | _ => false end)
          diags.

End diag.

(** A Go call either returns or panics; the only panics in reach of
    Float64Type are a method call through a nil [*big.Float] and
    [big.NewFloat] of a NaN. *)
Inductive result (A : Type) : Type :=
| Ok (a : A)
| Panic.
Arguments Ok {A} a.
Arguments Panic {A}.

(** ** basetypes: Float64Type *)
Module basetypes.

Import context.

Definition LF : string := String (ascii_of_nat 10) EmptyString.

(** Modelled from the spec: float64_value.go, which declares Float64Value
    and its constructors, is not among the sources.  A value is a "tagged
    union over {Null, Unknown, Known(payload)}"; the zero payload fills the
    two states that carry none. *)
Record Float64Value : Type := mkFloat64Value {
  state : attr.ValueState;
  value : math.float64
}.

Definition NewFloat64Null : Float64Value :=
  mkFloat64Value attr.ValueStateNull (math.F64zero false).

Definition NewFloat64Unknown : Float64Value :=
  mkFloat64Value attr.ValueStateUnknown (math.F64zero false).

Definition NewFloat64Value (value : math.float64) : Float64Value :=
  mkFloat64Value attr.ValueStateKnown value.

(** A Float64Value held by an attr.Value (or Float64Valuable) interface. *)
Definition as_Value (v : Float64Value) : attr.Value :=
  attr.Float64Value (state v) (value v).

(** [type Float64Type struct{}] *)
Inductive Float64Type : Type := mkFloat64Type.

(** [Float64Typable]: attr.Type with Validate (xattr.TypeWithValidate) and
    ValueFromFloat64, as the table of methods of an implementing type [T]. *)
Class Float64Typable (T : Type) : Type := {
  Equal : T -> option attr.Type_ -> bool;
  String : T -> string;
  TerraformType : T -> Context -> tftypes.Type_;
  Validate : T -> Context -> tftypes.Value -> path.Path ->
             result diag.Diagnostics;
  ValueFromFloat64 : T -> Context -> Float64Value ->
                     attr.Value * diag.Diagnostics;
  ValueFromTerraform : T -> Context -> tftypes.Value ->
                       result (option attr.Value * option error);
  ValueType : T -> Context -> attr.Value
}.

Module Float64Type.

Definition provider_error : string :=
  "An unexpected error was encountered trying to validate an attribute value. This is always an error in the provider. Please report the following to the provider developer:"
  ++ LF ++ LF.

Definition Equal (t : Float64Type) (o : option attr.Type_) : bool :=
  match o with
  | Some attr.Float64Type => true
  | _ => false
  end.

Definition String (t : Float64Type) : string := "basetypes.Float64Type".

Definition TerraformType (t : Float64Type) (_ : Context) : tftypes.Type_ :=
  tftypes.Number.

Definition Validate (t : Float64Type) (ctx : Context) (in_ : tftypes.Value)
    (p : path.Path) : result diag.Diagnostics :=
  let diags : diag.Diagnostics := [] in
  match tftypes.Type' in_ with
  | None => Ok diags
  | Some ty =>
      if negb (tftypes.Equal_Number ty) then
        Ok (diag.AddAttributeError diags p "Float64 Type Validation Error"
              [fmt.Lit provider_error;
               fmt.Sprintf "Expected Number value, received %T with value: %v"
                 [fmt.OfValue in_; fmt.OfValue in_]])
      else if negb (tftypes.IsKnown in_) || tftypes.IsNull in_ then Ok diags
      else
        let '(value, err) := tftypes.As in_ in
        match err with
        | Some e =>
            Ok (diag.AddAttributeError diags p "Float64 Type Validation Error"
                  [fmt.Lit provider_error;
                   fmt.Sprintf "Cannot convert value to big.Float: %s"
                     [fmt.OfAsError e]])
        | None =>
            match value with
            | None => Panic
            | Some x =>
                let '(_, accuracy) := big.Float64 x in
                if negb (big.Accuracy_int accuracy =? 0) then
                  Ok (diag.AddAttributeError diags p
                        "Float64 Type Validation Error"
                        [fmt.Sprintf
                           "Value %s cannot be represented as a 64-bit floating point."
                           [fmt.OfFloat value]])
                else Ok diags
            end
        end
  end.

Definition ValueFromFloat64 (t : Float64Type) (_ : Context) (v : Float64Value)
  : attr.Value * diag.Diagnostics :=
  (as_Value v, []).

Definition ValueFromTerraform (t : Float64Type) (ctx : Context)
    (in_ : tftypes.Value) : result (option attr.Value * option error) :=
  if negb (tftypes.IsKnown in_) then Ok (Some (as_Value NewFloat64Unknown), None)
  else if tftypes.IsNull in_ then Ok (Some (as_Value NewFloat64Null), None)
  else
    let '(bigF, err) := tftypes.As in_ in
    match err with
    | Some e => Ok (None, Some (ErrAs e))
    | None =>
        match bigF with
        | None => Panic
        | Some x =>
            let '(f, accuracy) := big.Float64 x in
            if negb (big.Accuracy_int accuracy =? 0) then
              Ok (None,
                  Some (Errorf
                          "Value %s cannot be represented as a 64-bit floating point."
                          [fmt.OfFloat bigF]))
            else Ok (Some (as_Value (NewFloat64Value f)), None)
        end
    end.

Definition ValueType (t : Float64Type) (_ : Context) : attr.Value :=
  as_Value (mkFloat64Value attr.ValueStateNull (math.F64zero false)).

End Float64Type.

(** [var _ Float64Typable = Float64Type{}] *)
#[global] Instance Float64Type_Float64Typable : Float64Typable Float64Type := {
  Equal := Float64Type.Equal;
  String := Float64Type.String;
  TerraformType := Float64Type.TerraformType;
  Validate := Float64Type.Validate;
  ValueFromFloat64 := Float64Type.ValueFromFloat64;
  ValueFromTerraform := Float64Type.ValueFromTerraform;
  ValueType := Float64Type.ValueType
}.

(** A custom type declared by embedding, [type Custom struct{ Base }]: Go
    promotes every method of [Base] to [Custom] unless [Custom] declares a
    method of that name itself.  [Overrides] lists the methods it declares;
    each receives the custom value and reaches the base through [Base]. *)
Record Embedding (B : Type) : Type := mkEmbedding { Base : B }.
Arguments mkEmbedding {B} Base.
Arguments Base {B} e.

Record Overrides (B : Type) : Type := mkOverrides {
  own_Equal : option (Embedding B -> option attr.Type_ -> bool);
  own_String : option (Embedding B -> string);
  own_TerraformType : option (Embedding B -> Context -> tftypes.Type_);
  own_Validate : option (Embedding B -> Context -> tftypes.Value ->
                         path.Path -> result diag.Diagnostics);
  own_ValueFromFloat64 : option (Embedding B -> Context -> Float64Value ->
                                 attr.Value * diag.Diagnostics);
  own_ValueFromTerraform : option (Embedding B -> Context -> tftypes.Value ->
                                   result (option attr.Value * option error));
  own_ValueType : option (Embedding B -> Context -> attr.Value)
}.
Arguments mkOverrides {B}.
Arguments own_Equal {B} o.
Arguments own_String {B} o.
Arguments own_TerraformType {B} o.
Arguments own_Validate {B} o.
Arguments own_ValueFromFloat64 {B} o.
Arguments own_ValueFromTerraform {B} o.
Arguments own_ValueType {B} o.

Definition no_overrides {B : Type} : Overrides B :=
  mkOverrides None None None None None None None.

(** Method selection: the custom type's own method, else the promoted one. *)
Definition selected {B R : Type} (own : option (Embedding B -> R))
    (promoted : B -> R) : Embedding B -> R :=
  match own with
  | Some m => m
  | None => fun c => promoted (Base c)
  end.

Definition Custom {B : Type} `{Float64Typable B} (ov : Overrides B)
  : Float64Typable (Embedding B) := {|
  Equal := selected (own_Equal ov) Equal;
  String := selected (own_String ov) String;
  TerraformType := selected (own_TerraformType ov) TerraformType;
  Validate := selected (own_Validate ov) Validate;
  ValueFromFloat64 := selected (own_ValueFromFloat64 ov) ValueFromFloat64;
  ValueFromTerraform := selected (own_ValueFromTerraform ov) ValueFromTerraform;
  ValueType := selected (own_ValueType ov) ValueType
|}.

(** Modelled from the spec: float64_value.go, with the methods of
    Float64Value, is not among the sources.  [ToTerraformValue] is the spec's
    "ToWire() -> dynamic value (inverse of decoding)": a Number whose payload
    is nil for Null, the unknown marker for Unknown and, for Known, the
    big.Float that [big.NewFloat] makes of the float64.  [Equal] is the spec's
    "variant for variant" comparison: same variant, same state and, when
    Known, payloads equal under Go's [==]. *)
Module Float64Value.

Definition ToTerraformValue (f : Float64Value) : result tftypes.Value :=
  match state f with
  | attr.ValueStateKnown =>
      match big.NewFloat (value f) with
      | Some x => Ok (tftypes.mkValue (Some tftypes.Number) (tftypes.Vnumber x))
      | None => Panic
      end
  | attr.ValueStateNull =>
      Ok (tftypes.mkValue (Some tftypes.Number) tftypes.Vnil)
  | attr.ValueStateUnknown =>
      Ok (tftypes.mkValue (Some tftypes.Number) tftypes.Vunknown)
  end.

Definition Equal (f : Float64Value) (o : attr.Value) : bool :=
  match o with
  | attr.Float64Value ostate ovalue =>
      match state f, ostate with
      | attr.ValueStateKnown, attr.ValueStateKnown => math.eqb (value f) ovalue
      | attr.ValueStateNull, attr.ValueStateNull => true
      | attr.ValueStateUnknown, attr.ValueStateUnknown => true
      | _, _ => false
      end
  | _ => false
  end.

End Float64Value.

End basetypes.

(** ** Vocabulary of the properties *)

(** The float64 [f] has exactly the value of the big.Float [x]: the same
    class and sign and, for finite values, [m * 2^e = mant * 2^(exp - size
    mant)], compared after scaling both sides to integers. *)
Definition represents (f : math.float64) (x : big.Float) : Prop :=
  match f, x with
  | math.F64zero s, big.Fzero s' => s = s'
  | math.F64inf s, big.Finf s' => s = s'
  | math.F64finite s m e, big.Ffinite s' mant exp =>
      s = s' /\
      let e' := exp - big.size mant in
      Z.pos m * 2 ^ (e - Z.min e e') = Z.pos mant * 2 ^ (e' - Z.min e e')
  | _, _ => False
  end.

(** Some float64 has exactly the value of [x]. *)
Definition representable (x : big.Float) : Prop :=
  exists f, math.valid f = true /\ represents f x.

(** The test both methods make: [accuracy != 0] after [Float64()]. *)
Definition narrowing_fails (x : big.Float) : bool :=
  negb (big.Accuracy_int (snd (big.Float64 x)) =? 0).

(** [tftypes.NewValue(tftypes.Number, x)] for a [*big.Float] [x]. *)
Definition NewNumber (x : big.Float) : tftypes.Value :=
  tftypes.mkValue (Some tftypes.Number) (tftypes.Vnumber x).

(** The decimal 1.79769313486231570814527423731704356798070e+1000: forty-two
    digits times 10^959, an integer, held exactly. *)
Definition decimal_1e1000_digits : positive :=
  (179769313486231570814527423731704356798070 * 10 ^ 959)%positive.

Definition decimal_1e1000 : big.Float :=
  big.Ffinite false decimal_1e1000_digits (big.size decimal_1e1000_digits).

(** The same decimal held in a mantissa of [prec] bits, rounded to nearest
    even; a wire number read from the protocol has 512 of them. *)
Definition decimal_1e1000_at (prec : positive) : big.Float :=
  fst (big.round (Z.pos prec) false decimal_1e1000_digits
         (big.size decimal_1e1000_digits)).

(** Exactly one diagnostic, an Error, attributed to [p]. *)
Definition one_error_at (p : path.Path) (r : result diag.Diagnostics) : Prop :=
  exists d,
    r = Ok [d] /\
    diag.severity d = diag.SeverityError /\
    diag.attribute_path d = Some p.

(** [needle] occurs in [hay]. *)
Fixpoint contains (needle hay : string) : bool :=
  match hay with
  | EmptyString => String.prefix needle hay
  | String _ rest => String.prefix needle hay || contains needle rest
  end.

(** The literal text of a message: its literals and its formats. *)
Definition text_contains (needle : string) (t : fmt.text) : bool :=
  existsb (fun pc =>
             match pc with
             | fmt.Lit s => contains needle s
             | fmt.Sprintf format _ => contains needle format
             end) t.

Definition narrowing_format : string :=
  "Value %s cannot be represented as a 64-bit floating point.".

(** The Error diagnostic that [AddAttributeError] records. *)
Definition attribute_error (p : path.Path) (detail : fmt.text)
  : diag.Diagnostic :=
  diag.mkDiagnostic diag.SeverityError "Float64 Type Validation Error" detail
    (Some p).

(** A conversion that hands back a value, whatever else it reports. *)
Definition yields_value (r : result (option attr.Value * option error))
  : Prop :=
  exists v e, r = Ok (Some v, e).

(** What the spec's round trip asks of a Float64Value [v]: its wire
    encoding exists, decodes without error, and the decoded value equals
    [v]. *)
Definition round_trips (ctx : context.Context) (v : basetypes.Float64Value)
  : Prop :=
  exists w v',
    basetypes.Float64Value.ToTerraformValue v = Ok w /\
    basetypes.Float64Type.ValueFromTerraform basetypes.mkFloat64Type ctx w
      = Ok (Some v', None) /\
    basetypes.Float64Value.Equal v v' = true.

(** ** Vocabulary of the further properties *)

(** The mantissa bits float64 offers a number whose leading bit is at
    [exp - 1]: 53 in the normal range, fewer below it (the precision [p] that
    [Float64] rounds to). *)
Definition float64_precision (exp : Z) : Z :=
  if exp - 1 <? math.emin then math.mbits + 1 - math.emin + (exp - 1)
  else math.mbits + 1.

(** The wire number needs no more bits than float64 offers at its exponent,
    and its exponent is in range. *)
Definition fits (x : big.Float) : bool :=
  match x with
  | big.Ffinite _ mant exp =>
      let p := float64_precision exp in
      (0 <? p) && (exp <=? math.emax + 1)
      && ((big.size mant <=? p)
          || (Z.pos mant mod 2 ^ (big.size mant - p) =? 0))
  | _ => true
  end.

(** [-x] *)
Definition Float_Neg (x : big.Float) : big.Float :=
  match x with
  | big.Fzero s => big.Fzero (negb s)
  | big.Finf s => big.Finf (negb s)
  | big.Ffinite s m e => big.Ffinite (negb s) m e
  end.

(** The big.Float that [SetInt64] and its like make of an integer: exact,
    with the integer's magnitude as mantissa. *)
Definition Float_of_int (n : Z) : big.Float :=
  match n with
  | Z0 => big.Fzero false
  | Z.pos m => big.Ffinite false m (big.size m)
  | Z.neg m => big.Ffinite true m (big.size m)
  end.

(** What [tftypes.NewValue] lets exist as far as Float64Type looks: the
    zero Value has no type and no payload, a Number holds nil, the unknown
    marker or a big.Float. *)
Definition well_formed (v : tftypes.Value) : bool :=
  match tftypes.Type' v with
  | None => tftypes.IsNull v
  | Some tftypes.Number => tftypes.number_payload v
  | Some _ => true
  end.

(** The narrowing diagnostic of [Validate]. *)
Definition narrowing_error (p : path.Path) (x : big.Float) : diag.Diagnostic :=
  attribute_error p [fmt.Sprintf narrowing_format [fmt.OfFloat (Some x)]].

(** ** The text of a narrowing failure *)

(** What [fmt] writes for a [*big.Float] operand under the verb %s:
    [Float.Format] knows the floating-point verbs and v, not s, and for any
    other verb writes the bad-verb form around [x.String()]. *)
Definition Format_s (x : big.Float) : string :=
  "%!s(*big.Float=" ++ ftoa.String x ++ ")".

(** [fmt.Sprintf(format, x)] for a format with one %s: the text of the
    operand takes the place of the verb. *)
Fixpoint Sprintf_s (format operand : string) : string :=
  match format with
  | EmptyString => EmptyString
  | String.String c rest =>
      if Ascii.eqb c "%" then
        match rest with
        | String.String v rest' =>
            if Ascii.eqb v "s" then operand ++ rest'
            else String.String c (Sprintf_s rest operand)
        | EmptyString => format
        end
      else String.String c (Sprintf_s rest operand)
  end.

(** The message of both methods for a wire number [x] that fails the
    narrowing: [fmt.Sprintf("Value %s cannot be ...", x)]. *)
Definition narrowing_message (x : big.Float) : string :=
  Sprintf_s narrowing_format (Format_s x).

(** The text of a message whose operands are big.Floats under %s; the text
    of the other operands (a tftypes.Value, an error of [As]) is not given
    here, and neither is that of a message holding one. *)
Fixpoint render (t : fmt.text) : option string :=
  match t with
  | [] => Some EmptyString
  | fmt.Lit s :: rest =>
      match render rest with
      | Some r => Some (s ++ r)%string
      | None => None
      end
  | fmt.Sprintf format [fmt.OfFloat (Some x)] :: rest =>
      match render rest with
      | Some r => Some (Sprintf_s format (Format_s x) ++ r)%string
      | None => None
      end
  | _ => None
  end.

(** The decimal as the claim writes it. *)
Definition decimal_1e1000_text : string :=
  "1.79769313486231570814527423731704356798070e+1000".

(** The outcomes that a reading of ValueFromTerraform as three branches
    allows: the Unknown value, the Null value, a Known value, or the
    precision-loss error. *)
Definition three_branch_outcome
    (r : result (option attr.Value * option error)) : Prop :=
  r = Ok (Some (basetypes.as_Value basetypes.NewFloat64Unknown), None) \/
  r = Ok (Some (basetypes.as_Value basetypes.NewFloat64Null), None) \/
  (exists f,
      r = Ok (Some (basetypes.as_Value (basetypes.NewFloat64Value f)), None)) \/
  (exists x,
      r = Ok (None, Some (Errorf narrowing_format [fmt.OfFloat (Some x)]))).

(** ** Properties of the descriptor itself *)

(** C8: TerraformType returns the Number wire type in every context, and
    String returns the identifier "basetypes.Float64Type". *)
Theorem Float64Type_wire_type_and_name :
  forall (t : basetypes.Float64Type) (ctx : context.Context),
    basetypes.Float64Type.TerraformType t ctx = tftypes.Number /\
    basetypes.Float64Type.String t = "basetypes.Float64Type"%string.
Proof.
  intros t ctx. split; reflexivity.
Qed.

(** C6: Equal is decided by the kind of the other descriptor alone: it is
    true exactly when that descriptor is a Float64Type, whichever Float64Type
    value is the receiver. *)
Theorem Float64Type_Equal_structural :
  forall (t : basetypes.Float64Type) (o : option attr.Type_),
    basetypes.Float64Type.Equal t o = true <-> o = Some attr.Float64Type.
Proof.
  intros t o. unfold basetypes.Float64Type.Equal. split.
  - destruct o as [k|]; [destruct k|]; intro H; try discriminate H; reflexivity.
  - intros ->. reflexivity.
Qed.

(** ** Sample narrowings *)

(** 1 is exact. *)
Example Float64_one :
  big.Float64 (big.Ffinite false 1 1)
  = (math.F64finite false 4503599627370496 (-52), big.Exact).
Proof. reflexivity. Qed.

(** 2^53 + 1 lies halfway between two float64 and goes to the even one. *)
Example Float64_tie_goes_to_even :
  big.Float64 (big.Ffinite false 9007199254740993 54)
  = (math.F64finite false 4503599627370496 1, big.Below).
Proof. reflexivity. Qed.

(** math.MaxFloat64, (2^53 - 1) * 2^971, is exact; one more mantissa bit
    overflows. *)
Example Float64_MaxFloat64 :
  big.Float64 (big.Ffinite false 9007199254740991 1024)
  = (math.F64finite false 9007199254740991 971, big.Exact).
Proof. reflexivity. Qed.

Example Float64_above_MaxFloat64 :
  big.Float64 (big.Ffinite false 18014398509481983 1024)
  = (math.Inf false, big.Above).
Proof. reflexivity. Qed.

(** math.SmallestNonzeroFloat64, 2^-1074, is exact; half of it underflows. *)
Example Float64_SmallestNonzeroFloat64 :
  big.Float64 (big.Ffinite false 1 (-1073))
  = (math.SmallestNonzeroFloat64, big.Exact).
Proof. reflexivity. Qed.

Example Float64_half_SmallestNonzeroFloat64 :
  big.Float64 (big.Ffinite true 1 (-1074)) = (math.F64zero true, big.Above).
Proof. reflexivity. Qed.

(** One tenth in a 64-bit mantissa, 0xCCCCCCCCCCCCCCCD * 2^-67, is not a
    float64. *)
Example Float64_tenth :
  big.Float64 (big.Ffinite false 14757395258967641293 (-3))
  = (math.F64finite false 7205759403792794 (-56), big.Above).
Proof. reflexivity. Qed.

(** ** Validate and ValueFromTerraform on a Number payload *)

Lemma Validate_NewNumber :
  forall t ctx x p,
    basetypes.Float64Type.Validate t ctx (NewNumber x) p
    = if narrowing_fails x
      then Ok [attribute_error p
                 [fmt.Sprintf narrowing_format [fmt.OfFloat (Some x)]]]
      else Ok [].
Proof.
  intros t ctx x p.
  unfold basetypes.Float64Type.Validate, narrowing_fails, NewNumber.
  cbn [tftypes.Type' tftypes.Equal_Number tftypes.IsKnown tftypes.IsNull
       tftypes.value_of tftypes.As negb orb].
  destruct (big.Float64 x) as [f acc]. cbn [snd].
  destruct (negb (big.Accuracy_int acc =? 0)); reflexivity.
Qed.

Lemma ValueFromTerraform_number :
  forall t ctx typ x,
    basetypes.Float64Type.ValueFromTerraform t ctx
      (tftypes.mkValue typ (tftypes.Vnumber x))
    = if narrowing_fails x
      then Ok (None, Some (Errorf narrowing_format [fmt.OfFloat (Some x)]))
      else Ok (Some (basetypes.as_Value
                       (basetypes.NewFloat64Value (fst (big.Float64 x)))),
               None).
Proof.
  intros t ctx typ x.
  unfold basetypes.Float64Type.ValueFromTerraform, narrowing_fails.
  cbn [tftypes.IsKnown tftypes.IsNull tftypes.value_of tftypes.As negb].
  destruct (big.Float64 x) as [f acc]. cbn [fst snd].
  destruct (negb (big.Accuracy_int acc =? 0)); reflexivity.
Qed.

Lemma Equal_Number_true :
  forall ty, tftypes.Equal_Number ty = true <-> ty = tftypes.Number.
Proof.
  intros ty. split.
  - destruct ty; intro H; try discriminate H; reflexivity.
  - intros ->. reflexivity.
Qed.

(** Neither method panics: the nil pointer that [As] leaves on a null
    value is never dereferenced, both methods return before that. *)
Lemma Validate_never_panics :
  forall t ctx in_ p, basetypes.Float64Type.Validate t ctx in_ p <> Panic.
Proof.
  intros t ctx [typ pl] p. unfold basetypes.Float64Type.Validate.
  destruct typ as [ty|]; [|discriminate].
  cbn [tftypes.Type']. destruct (tftypes.Equal_Number ty); [|discriminate].
  destruct pl; cbn; try discriminate.
  destruct (big.Float64 f) as [g acc].
  destruct (negb (big.Accuracy_int acc =? 0)); discriminate.
Qed.

Lemma ValueFromTerraform_never_panics :
  forall t ctx in_,
    basetypes.Float64Type.ValueFromTerraform t ctx in_ <> Panic.
Proof.
  intros t ctx [typ pl]. unfold basetypes.Float64Type.ValueFromTerraform.
  destruct pl; cbn; try discriminate.
  destruct (big.Float64 f) as [g acc].
  destruct (negb (big.Accuracy_int acc =? 0)); discriminate.
Qed.

(** C9: Validate returns an empty collection when the wire value has a nil
    wire type, or is a Number that is null, or is a Number that is Unknown. *)
Theorem Validate_returns_no_diagnostics :
  forall (t : basetypes.Float64Type) (ctx : context.Context)
         (in_ : tftypes.Value) (p : path.Path),
    tftypes.Type' in_ = None \/
    (tftypes.Type' in_ = Some tftypes.Number /\ tftypes.IsNull in_ = true) \/
    (tftypes.Type' in_ = Some tftypes.Number /\ tftypes.IsKnown in_ = false) ->
    basetypes.Float64Type.Validate t ctx in_ p = Ok [].
Proof.
  intros t ctx in_ p H. unfold basetypes.Float64Type.Validate.
  destruct H as [H | [[H N] | [H U]]]; rewrite H; try reflexivity.
  - cbn [tftypes.Equal_Number negb]. rewrite N, orb_true_r. reflexivity.
  - cbn [tftypes.Equal_Number negb]. rewrite U. reflexivity.
Qed.

Lemma Validate_returns_no_diagnostics_witness :
  basetypes.Float64Type.Validate basetypes.mkFloat64Type context.Background
    (tftypes.mkValue None (tftypes.Vstring "x")) (path.Root "test") = Ok []
  /\ basetypes.Float64Type.Validate basetypes.mkFloat64Type context.Background
       (tftypes.mkValue (Some tftypes.Number) tftypes.Vnil) (path.Root "test")
     = Ok []
  /\ basetypes.Float64Type.Validate basetypes.mkFloat64Type context.Background
       (tftypes.mkValue (Some tftypes.Number) tftypes.Vunknown)
       (path.Root "test")
     = Ok [].
Proof.
  split; [|split]; apply Validate_returns_no_diagnostics.
  - left. reflexivity.
  - right. left. split; reflexivity.
  - right. right. split; reflexivity.
Defined.

(** C5: on a wire value whose wire type is neither nil nor Number, Validate
    returns exactly one diagnostic: an Error at the given path whose detail
    says that this is always an error in the provider and names the value
    received; nothing else is checked or recorded. *)
Theorem Validate_wire_type_mismatch :
  forall (t : basetypes.Float64Type) (ctx : context.Context)
         (in_ : tftypes.Value) (p : path.Path) (ty : tftypes.Type_),
    tftypes.Type' in_ = Some ty ->
    ty <> tftypes.Number ->
    exists detail,
      basetypes.Float64Type.Validate t ctx in_ p
        = Ok [attribute_error p detail] /\
      detail = [fmt.Lit basetypes.Float64Type.provider_error;
                fmt.Sprintf "Expected Number value, received %T with value: %v"
                  [fmt.OfValue in_; fmt.OfValue in_]] /\
      text_contains "This is always an error in the provider" detail = true.
Proof.
  intros t ctx in_ p ty Hty Hne.
  eexists. split; [|split; [reflexivity|]].
  - unfold basetypes.Float64Type.Validate. rewrite Hty.
    destruct (tftypes.Equal_Number ty) eqn:E.
    + apply Equal_Number_true in E. contradiction.
    + reflexivity.
  - vm_compute. reflexivity.
Qed.

Lemma Validate_wire_type_mismatch_witness :
  exists detail,
    basetypes.Float64Type.Validate basetypes.mkFloat64Type context.Background
      (tftypes.mkValue (Some tftypes.String) (tftypes.Vstring "1.5"))
      (path.Root "test")
      = Ok [attribute_error (path.Root "test") detail] /\
    detail = [fmt.Lit basetypes.Float64Type.provider_error;
              fmt.Sprintf "Expected Number value, received %T with value: %v"
                [fmt.OfValue
                   (tftypes.mkValue (Some tftypes.String) (tftypes.Vstring "1.5"));
                 fmt.OfValue
                   (tftypes.mkValue (Some tftypes.String) (tftypes.Vstring "1.5"))]] /\
    text_contains "This is always an error in the provider" detail = true.
Proof.
  apply (Validate_wire_type_mismatch basetypes.mkFloat64Type context.Background
           (tftypes.mkValue (Some tftypes.String) (tftypes.Vstring "1.5"))
           (path.Root "test") tftypes.String).
  - reflexivity.
  - discriminate.
Defined.

(** C10: on a wire value of wire type Number, Validate returns an empty
    collection exactly when ValueFromTerraform returns a value and a nil
    error. *)
Theorem Validate_agrees_with_ValueFromTerraform :
  forall (t : basetypes.Float64Type) (ctx : context.Context)
         (in_ : tftypes.Value) (p : path.Path),
    tftypes.Type' in_ = Some tftypes.Number ->
    (basetypes.Float64Type.Validate t ctx in_ p = Ok [] <->
     exists v, basetypes.Float64Type.ValueFromTerraform t ctx in_
               = Ok (Some v, None)).
Proof.
  intros t ctx [typ pl] p H. cbn in H. subst typ.
  destruct pl as [ | | b | x | s | l | m];
    try (cbn; split; [intro H; discriminate H | intros [v H]; discriminate H]);
    try (cbn; split; [intros _; eexists; reflexivity | reflexivity]).
  change (tftypes.mkValue (Some tftypes.Number) (tftypes.Vnumber x))
    with (NewNumber x).
  rewrite Validate_NewNumber. unfold NewNumber.
  rewrite ValueFromTerraform_number.
  destruct (narrowing_fails x).
  - split; [intro H; discriminate H | intros [v H]; discriminate H].
  - split; [intros _; eexists; reflexivity | reflexivity].
Qed.

Lemma Validate_agrees_with_ValueFromTerraform_witness :
  basetypes.Float64Type.Validate basetypes.mkFloat64Type context.Background
    (NewNumber (big.Ffinite false 3 2)) (path.Root "test") = Ok [] <->
  exists v, basetypes.Float64Type.ValueFromTerraform basetypes.mkFloat64Type
              context.Background (NewNumber (big.Ffinite false 3 2))
            = Ok (Some v, None).
Proof.
  apply (Validate_agrees_with_ValueFromTerraform basetypes.mkFloat64Type
           context.Background (NewNumber (big.Ffinite false 3 2))
           (path.Root "test")).
  reflexivity.
Defined.

(** ** Arithmetic of mantissas *)

Lemma size_log2 : forall m, big.size m = Z.log2 (Z.pos m) + 1.
Proof.
  intros m. unfold big.size. destruct m; cbn; lia.
Qed.

Lemma size_bounds :
  forall m, 2 ^ (big.size m - 1) <= Z.pos m < 2 ^ big.size m.
Proof.
  intros m. rewrite size_log2.
  replace (Z.log2 (Z.pos m) + 1 - 1) with (Z.log2 (Z.pos m)) by lia.
  pose proof (Z.log2_spec (Z.pos m) ltac:(lia)) as H.
  replace (Z.log2 (Z.pos m) + 1) with (Z.succ (Z.log2 (Z.pos m))) by lia.
  exact H.
Qed.

Lemma size_pos : forall m, 1 <= big.size m.
Proof.
  intros m. unfold big.size. lia.
Qed.

Lemma size_unique :
  forall m k, 2 ^ (k - 1) <= Z.pos m < 2 ^ k -> big.size m = k.
Proof.
  intros m k H. rewrite size_log2.
  assert (Hk : 1 <= k).
  { destruct (Z_lt_le_dec k 1) as [L|L]; [|exact L].
    exfalso. assert (2 ^ k <= 2 ^ 0) by (destruct (Z_lt_le_dec k 0);
      [rewrite Z.pow_neg_r by lia; cbn; lia | apply Z.pow_le_mono_r; lia]).
    cbn in *. lia. }
  rewrite (Z.log2_unique (Z.pos m) (k - 1)); try lia.
  replace (Z.succ (k - 1)) with k by lia. exact H.
Qed.

Lemma size_mul_pow2 :
  forall m k, 0 <= k -> big.size (Z.to_pos (Z.pos m * 2 ^ k)) = big.size m + k.
Proof.
  intros m k Hk.
  assert (P : 0 < 2 ^ k) by (apply Z.pow_pos_nonneg; lia).
  apply size_unique. rewrite Z2Pos.id by nia.
  pose proof (size_bounds m) as [L U].
  replace (big.size m + k - 1) with (big.size m - 1 + k) by lia.
  pose proof (size_pos m).
  rewrite !Z.pow_add_r by lia. split; nia.
Qed.

(** Two mantissas scaled to the same integer have the same leading bit. *)
Lemma size_scaled_eq :
  forall a b i j, 0 <= i -> 0 <= j ->
    Z.pos a * 2 ^ i = Z.pos b * 2 ^ j ->
    big.size a + i = big.size b + j.
Proof.
  intros a b i j Hi Hj E.
  rewrite <- (size_mul_pow2 a i Hi), <- (size_mul_pow2 b j Hj), E.
  reflexivity.
Qed.

(** The rounding bit and the sticky bit are both clear exactly when the
    [r + 1] bits that rounding drops are all clear. *)
Lemma dropped_bits_clear :
  forall m r, 0 <= r ->
    Z.lor (Z.b2z (Z.testbit (Z.pos m) r)) (big.sticky m r) = 0 <->
    Z.pos m mod 2 ^ (r + 1) = 0.
Proof.
  intros m r Hr.
  assert (P : 0 < 2 ^ r) by (apply Z.pow_pos_nonneg; lia).
  rewrite Z.lor_eq_0_iff, Z.testbit_spec' by lia.
  rewrite Z.pow_add_r, Z.pow_1_r by lia.
  rewrite Z.rem_mul_r by lia.
  pose proof (Z.mod_pos_bound (Z.pos m) (2 ^ r) P) as B1.
  pose proof (Z.mod_pos_bound (Z.pos m / 2 ^ r) 2 ltac:(lia)) as B2.
  unfold big.sticky.
  destruct (Z.eqb_spec (Z.pos m mod 2 ^ r) 0) as [E|E]; split; intro H; nia.
Qed.

Lemma makeAcc_not_Exact : forall b, big.makeAcc b <> big.Exact.
Proof.
  intros []; discriminate.
Qed.

(** An exact rounding keeps the value and the exponent, on a mantissa of at
    most [prec] bits. *)
Lemma round_Exact :
  forall prec neg m ex r,
    0 < prec ->
    big.round prec neg m ex = (r, big.Exact) ->
    exists m',
      r = big.Ffinite neg m' ex /\
      big.size m' <= prec /\
      big.size m' <= big.size m /\
      Z.pos m = Z.pos m' * 2 ^ (big.size m - big.size m').
Proof.
  intros prec neg m ex r Hp. unfold big.round.
  destruct (Z.leb_spec (big.size m) prec) as [L|L].
  - intro H. inversion H; subst. exists m.
    rewrite Z.sub_diag, Z.pow_0_r. repeat split; lia.
  - set (k := big.size m - prec - 1).
    destruct (Z.eqb_spec
                (Z.lor (Z.b2z (Z.testbit (Z.pos m) k)) (big.sticky m k)) 0)
      as [E|E].
    + intro H. inversion H; subst r. clear H.
      apply dropped_bits_clear in E; [|unfold k; lia].
      assert (P : 0 < 2 ^ (k + 1)) by (apply Z.pow_pos_nonneg; unfold k; lia).
      rewrite Z.shiftr_div_pow2 by (unfold k; lia).
      pose proof (Z.div_mod (Z.pos m) (2 ^ (k + 1)) ltac:(lia)) as D.
      rewrite E, Z.add_0_r in D.
      set (q := Z.pos m / 2 ^ (k + 1)) in *.
      assert (Q : 0 < q) by nia.
      assert (S : big.size (Z.to_pos q) + (k + 1) = big.size m + 0).
      { apply size_scaled_eq; try (unfold k; lia).
        rewrite Z2Pos.id by lia. rewrite Z.pow_0_r. lia. }
      exists (Z.to_pos q). repeat split; try (unfold k in S; lia).
      rewrite Z2Pos.id by lia.
      replace (big.size m - big.size (Z.to_pos q)) with (k + 1) by lia. lia.
    + repeat match goal with
             | |- context [if ?c then _ else _] => destruct c
             end;
        intro H; inversion H as [[H1 H2]];
        exfalso; exact (makeAcc_not_Exact _ H2).
Qed.

(** An inexact rounding dropped a set bit. *)
Lemma round_inexact :
  forall prec neg m ex r acc,
    0 < prec ->
    big.round prec neg m ex = (r, acc) ->
    acc <> big.Exact ->
    prec < big.size m /\ Z.pos m mod 2 ^ (big.size m - prec) <> 0.
Proof.
  intros prec neg m ex r acc Hp. unfold big.round.
  destruct (Z.leb_spec (big.size m) prec) as [L|L].
  - intros H N. inversion H; subst. contradiction.
  - set (k := big.size m - prec - 1).
    destruct (Z.eqb_spec
                (Z.lor (Z.b2z (Z.testbit (Z.pos m) k)) (big.sticky m k)) 0)
      as [E|E].
    + intros H N. inversion H; subst. contradiction.
    + intros _ _. split; [lia|].
      replace (big.size m - prec) with (k + 1) by (unfold k; lia).
      intro Z0. apply E. apply dropped_bits_clear; [unfold k; lia | exact Z0].
Qed.

(** Rounding never lowers the exponent. *)
Lemma round_exp :
  forall prec neg m ex neg' m' ex' acc,
    big.round prec neg m ex = (big.Ffinite neg' m' ex', acc) ->
    neg' = neg /\ ex <= ex'.
Proof.
  intros prec neg m ex neg' m' ex' acc. unfold big.round.
  repeat match goal with
         | |- context [if ?c then _ else _] => destruct c
         end;
    intro H; inversion H; subst; split; try reflexivity; lia.
Qed.

(** ** What Float64 returns *)

Lemma represents_finite :
  forall s mf ef m ex m0 i j,
    0 <= i -> 0 <= j ->
    Z.pos mf = Z.pos m0 * 2 ^ i ->
    Z.pos m = Z.pos m0 * 2 ^ j ->
    ef + i = ex - big.size m + j ->
    represents (math.F64finite s mf ef) (big.Ffinite s m ex).
Proof.
  intros s mf ef m ex m0 i j Hi Hj Ef Em Ee.
  unfold represents. split; [reflexivity|]. cbv zeta.
  set (e' := ex - big.size m) in *.
  set (c := Z.min ef e').
  rewrite Ef, Em, <- !Z.mul_assoc, <- !Z.pow_add_r by lia.
  f_equal. f_equal. lia.
Qed.

Lemma topbits_short :
  forall k m, big.size m <= k ->
    big.topbits k m = Z.pos m * 2 ^ (k - big.size m).
Proof.
  intros k m H. unfold big.topbits.
  destruct (Z.leb_spec (big.size m) k); [|lia].
  apply Z.shiftl_mul_pow2. lia.
Qed.

Lemma Float64frombits_normal :
  forall neg bexp M,
    2 ^ 52 <= M < 2 ^ 53 ->
    0 < bexp < 2047 ->
    math.Float64frombits neg bexp (Z.land M (2 ^ math.mbits - 1))
    = math.F64finite neg (Z.to_pos M) (bexp - 1075).
Proof.
  intros neg bexp M HM Hb. unfold math.Float64frombits.
  destruct (Z.eqb_spec bexp 0); [lia|].
  change (2 ^ math.ebits - 1) with 2047.
  destruct (Z.eqb_spec bexp 2047); [lia|].
  change (2 ^ math.mbits - 1) with (Z.ones 52).
  rewrite Z.land_ones by lia.
  assert (E : M mod 2 ^ 52 = M - 2 ^ 52).
  { symmetry. apply (Z.mod_unique_pos M (2 ^ 52) 1); lia. }
  rewrite E. unfold math.bias, math.mbits. f_equal; [f_equal|]; lia.
Qed.

Lemma Float64frombits_denormal :
  forall neg M, 0 < M ->
    math.Float64frombits neg 0 M = math.F64finite neg (Z.to_pos M) math.dmin.
Proof.
  intros neg M H. destruct M; try lia. reflexivity.
Qed.

(** A result reported Exact is a float64 with exactly the value of [x]. *)
Lemma Float64_Exact :
  forall x f,
    big.Float64 x = (f, big.Exact) ->
    math.valid f = true /\ represents f x.
Proof.
  intros [neg|neg|neg m ex] f; cbn [big.Float64].
  - intro H; inversion H; subst. split; reflexivity.
  - intro H; inversion H; subst. split; reflexivity.
  - unfold math.emin, math.emax, math.bias, math.mbits.
    destruct (Z.ltb_spec (ex - 1) (1 - 1023)) as [D|D].
    + (* below the normal range *)
      cbn [andb].
      destruct (Z.ltb_spec (52 + 1 - (1 - 1023) + (ex - 1)) 0) as [N|N];
        [cbn [orb]; destruct neg; intro H; discriminate H|].
      cbn [orb].
      destruct (Z.eqb_spec (52 + 1 - (1 - 1023) + (ex - 1)) 0) as [Z0|Z0].
      { cbn [andb].
        destruct (big.sticky m (big.size m - 1) =? 0);
          destruct neg; intro H; discriminate H. }
      cbn [andb].
      destruct (big.round (52 + 1 - (1 - 1023) + (ex - 1)) neg m ex)
        as [r acc] eqn:R.
      destruct r as [s|s|s rm rex];
        try (destruct neg; intro H; discriminate H).
      destruct (Z.gtb_spec (rex - 1) 1023) as [O|O];
        [destruct neg; intro H; discriminate H|].
      destruct (Z.ltb_spec (rex - 1) (1 - 1023)) as [D'|D'].
      * intro H. apply pair_equal_spec in H. destruct H as [Hf Hacc]. subst acc f.
        apply round_Exact in R; [|lia].
        destruct R as (m' & Hr & S1 & S2 & Em). injection Hr as -> -> ->.
        pose proof (size_pos m').
        rewrite topbits_short by lia.
        assert (P : 0 < 2 ^ (52 + 1 - (1 - 1023) + (ex - 1) - big.size m'))
          by (apply Z.pow_pos_nonneg; lia).
        rewrite Float64frombits_denormal by nia.
        split.
        -- cbn [math.valid].
           change (Z.pos (Pos.size ?a)) with (big.size a).
           rewrite size_mul_pow2 by lia.
           cbv [math.mbits math.dmin math.bias math.emax].
           rewrite ?orb_true_iff, ?andb_true_iff, ?Z.eqb_eq, ?Z.leb_le. lia.
        -- apply (represents_finite neg _ _ m ex m'
                    (52 + 1 - (1 - 1023) + (ex - 1) - big.size m')
                    (big.size m - big.size m'));
             [lia | lia | rewrite Z2Pos.id by nia; reflexivity | exact Em
             | cbv [math.dmin math.bias math.mbits]; lia].
      * intro H. apply pair_equal_spec in H. destruct H as [Hf Hacc]. subst acc f.
        apply round_Exact in R; [|lia].
        destruct R as (m' & Hr & S1 & S2 & Em). injection Hr as -> -> ->.
        lia.
    + (* the normal range *)
      cbn [andb].
      destruct (big.round (52 + 1) neg m ex) as [r acc] eqn:R.
      destruct r as [s|s|s rm rex];
        try (destruct neg; intro H; discriminate H).
      destruct (Z.gtb_spec (rex - 1) 1023) as [O|O];
        [destruct neg; intro H; discriminate H|].
      destruct (Z.ltb_spec (rex - 1) (1 - 1023)) as [D'|D'].
      * intro H. apply pair_equal_spec in H. destruct H as [Hf Hacc]. subst acc f.
        apply round_Exact in R; [|lia].
        destruct R as (m' & Hr & S1 & S2 & Em). injection Hr as -> -> ->.
        lia.
      * intro H. apply pair_equal_spec in H. destruct H as [Hf Hacc]. subst acc f.
        apply round_Exact in R; [|lia].
        destruct R as (m' & Hr & S1 & S2 & Em). injection Hr as -> -> ->.
        pose proof (size_pos m').
        change (2 ^ 52 - 1) with (2 ^ math.mbits - 1).
        rewrite topbits_short by lia.
        assert (P : 0 < 2 ^ (52 + 1 - big.size m'))
          by (apply Z.pow_pos_nonneg; lia).
        assert (SZ : big.size (Z.to_pos (Z.pos m' * 2 ^ (52 + 1 - big.size m')))
                     = 53).
        { rewrite size_mul_pow2 by lia. lia. }
        pose proof (size_bounds (Z.to_pos (Z.pos m' * 2 ^ (52 + 1 - big.size m'))))
          as B.
        rewrite SZ, Z2Pos.id in B by nia.
        rewrite Float64frombits_normal by (try exact B; lia).
        split.
        -- cbn [math.valid].
           change (Z.pos (Pos.size ?a)) with (big.size a).
           rewrite SZ.
           cbv [math.mbits math.dmin math.bias math.emax].
           rewrite ?orb_true_iff, ?andb_true_iff, ?Z.eqb_eq, ?Z.leb_le. lia.
        -- apply (represents_finite neg _ _ m ex m'
                    (52 + 1 - big.size m') (big.size m - big.size m'));
             [lia | lia | rewrite Z2Pos.id by nia; reflexivity | exact Em
             | lia].
Qed.

Lemma valid_finite :
  forall s m e,
    math.valid (math.F64finite s m e) = true ->
    (big.size m = 53 /\ -1074 <= e <= 971) \/ (big.size m <= 52 /\ e = -1074).
Proof.
  intros s m e. cbn [math.valid].
  change (Z.pos (Pos.size m)) with (big.size m).
  cbv [math.mbits math.dmin math.bias math.emax].
  rewrite ?orb_true_iff, ?andb_true_iff, ?Z.eqb_eq, ?Z.leb_le. lia.
Qed.

(** Equal values have their leading bits at the same binary position. *)
Lemma represents_leading_bit :
  forall s m e s' mant exp,
    represents (math.F64finite s m e) (big.Ffinite s' mant exp) ->
    big.size m + e = exp.
Proof.
  intros s m e s' mant exp [_ E]. cbv zeta in E.
  apply size_scaled_eq in E; lia.
Qed.

Lemma represents_multiple :
  forall s m e s' mant exp,
    represents (math.F64finite s m e) (big.Ffinite s' mant exp) ->
    exp - big.size mant <= e ->
    Z.pos mant = Z.pos m * 2 ^ (e - (exp - big.size mant)).
Proof.
  intros s m e s' mant exp [_ E] L. cbv zeta in E.
  rewrite Z.min_r in E by lia.
  rewrite Z.sub_diag, Z.pow_0_r, Z.mul_1_r in E. symmetry. exact E.
Qed.

(** A valid float64 of the value of [x] would make the bits that an inexact
    rounding dropped all zero. *)
Ltac dropped_bit_absurd R Rd :=
  apply round_inexact in Rd; [|lia|discriminate];
  destruct Rd as [? Md]; exfalso; apply Md;
  rewrite (represents_multiple _ _ _ _ _ _ R) by lia;
  match goal with
  | |- (_ * 2 ^ ?a) mod 2 ^ ?b = 0 =>
      replace a with ((a - b) + b) by lia;
      rewrite Z.pow_add_r, Z.mul_assoc by lia;
      apply Z.mod_mul; apply Z.pow_nonzero; lia
  end.

(** A result not reported Exact has no float64 of exactly its value. *)
Lemma Float64_inexact :
  forall x f acc,
    big.Float64 x = (f, acc) ->
    acc <> big.Exact ->
    ~ representable x.
Proof.
  intros [neg|neg|neg m ex] f acc; cbn [big.Float64].
  - intros H N. apply pair_equal_spec in H. destruct H as [_ <-]. contradiction.
  - intros H N. apply pair_equal_spec in H. destruct H as [_ <-]. contradiction.
  - intros H N (g & V & R).
    destruct g as [s|s| |s mg eg]; try contradiction.
    pose proof (valid_finite _ _ _ V) as VF.
    pose proof (represents_leading_bit _ _ _ _ _ _ R) as LB.
    pose proof (size_pos mg) as P1. pose proof (size_pos m) as P2.
    revert H. unfold math.emin, math.emax, math.bias, math.mbits.
    destruct (Z.ltb_spec (ex - 1) (1 - 1023)) as [D|D]; cbn [andb].
    + (* below the normal range: a denormal float64 has 1074 + ex bits *)
      destruct (Z.ltb_spec (52 + 1 - (1 - 1023) + (ex - 1)) 0) as [N0|N0];
        [lia|].
      destruct (Z.eqb_spec (52 + 1 - (1 - 1023) + (ex - 1)) 0) as [Z0|Z0];
        [lia|].
      cbn [orb andb].
      destruct (big.round (52 + 1 - (1 - 1023) + (ex - 1)) neg m ex)
        as [r racc] eqn:Rd.
      destruct racc; [dropped_bit_absurd R Rd | | dropped_bit_absurd R Rd].
      apply round_Exact in Rd; [|lia].
      destruct Rd as (m' & -> & _).
      destruct (Z.gtb_spec (ex - 1) 1023); [lia|].
      destruct (Z.ltb_spec (ex - 1) (1 - 1023)); [|lia].
      intro HH. apply pair_equal_spec in HH. destruct HH as [_ <-].
      contradiction.
    + (* the normal range: 53 bits *)
      destruct (big.round (52 + 1) neg m ex) as [r racc] eqn:Rd.
      destruct racc; [dropped_bit_absurd R Rd | | dropped_bit_absurd R Rd].
      apply round_Exact in Rd; [|lia].
      destruct Rd as (m' & -> & _).
      destruct (Z.gtb_spec (ex - 1) 1023); [lia|].
      destruct (Z.ltb_spec (ex - 1) (1 - 1023)); [lia|].
      intro HH. apply pair_equal_spec in HH. destruct HH as [_ <-].
      contradiction.
Qed.

(** The test [accuracy != 0] fails exactly on the values no float64 has. *)
Lemma narrowing_fails_iff :
  forall x, narrowing_fails x = true <-> ~ representable x.
Proof.
  intros x. unfold narrowing_fails.
  destruct (big.Float64 x) as [f acc] eqn:E. cbn [snd]. split.
  - intro H. apply (Float64_inexact x f acc E).
    intros ->. discriminate H.
  - intro N. destruct acc; try reflexivity.
    exfalso. apply N. exists f. apply Float64_Exact. exact E.
Qed.

Lemma narrowing_succeeds_iff :
  forall x, narrowing_fails x = false <-> representable x.
Proof.
  intros x. split.
  - intro H. unfold narrowing_fails in H.
    destruct (big.Float64 x) as [f acc] eqn:E. cbn [snd] in H.
    destruct acc; try discriminate H.
    exists f. apply Float64_Exact. exact E.
  - intro R. destruct (narrowing_fails x) eqn:E; [|reflexivity].
    apply narrowing_fails_iff in E. contradiction.
Qed.

(** A value has at most one float64. *)
Lemma represents_unique :
  forall f g x,
    math.valid f = true -> math.valid g = true ->
    represents f x -> represents g x -> f = g.
Proof.
  intros f g x Vf Vg Rf Rg.
  destruct x as [n|n|n m ex];
    destruct f as [s|s| |s mf ef]; try contradiction;
    destruct g as [s'|s'| |s' mg eg]; try contradiction.
  - cbn in Rf, Rg. congruence.
  - cbn in Rf, Rg. congruence.
  - pose proof (valid_finite _ _ _ Vf) as Cf.
    pose proof (valid_finite _ _ _ Vg) as Cg.
    pose proof (represents_leading_bit _ _ _ _ _ _ Rf) as Lf.
    pose proof (represents_leading_bit _ _ _ _ _ _ Rg) as Lg.
    pose proof (size_pos mf). pose proof (size_pos mg).
    assert (Ee : ef = eg) by lia. subst eg.
    destruct Rf as [-> Ef]. destruct Rg as [-> Eg]. cbv zeta in Ef, Eg.
    rewrite <- Eg in Ef.
    assert (P : 0 < 2 ^ (ef - Z.min ef (ex - big.size m)))
      by (apply Z.pow_pos_nonneg; lia).
    apply Z.mul_cancel_r in Ef; [|lia].
    injection Ef as ->. reflexivity.
Qed.

Lemma NewFloat_represents :
  forall f x,
    big.NewFloat f = Some x -> represents f x.
Proof.
  intros [s|s| |s m e] x H; cbn in H; try discriminate H;
    injection H as <-; try reflexivity.
  unfold represents. split; [reflexivity|]. cbv zeta. f_equal. f_equal. lia.
Qed.

(** Narrowing the big.Float made of a float64 gives that float64 back. *)
Lemma Float64_NewFloat :
  forall f x,
    math.valid f = true ->
    big.NewFloat f = Some x ->
    big.Float64 x = (f, big.Exact).
Proof.
  intros f x V H. pose proof (NewFloat_represents f x H) as R.
  destruct (big.Float64 x) as [g acc] eqn:E.
  assert (A : acc = big.Exact).
  { destruct acc; try reflexivity; exfalso;
      apply (Float64_inexact x g _ E); try discriminate; exists f; auto. }
  subst acc. destruct (Float64_Exact x g E) as [Vg Rg].
  rewrite (represents_unique g f x Vg V Rg R). reflexivity.
Qed.

Lemma eqb_refl_not_NaN :
  forall f, math.IsNaN f = false -> math.eqb f f = true.
Proof.
  intros [s|s| |s m e] H; try discriminate H; cbn.
  - reflexivity.
  - apply Bool.eqb_reflx.
  - rewrite Bool.eqb_reflx, Pos.eqb_refl, Z.eqb_refl. reflexivity.
Qed.

(** ** Out of range *)

Lemma round_finite :
  forall prec neg m ex,
    ex < big.MaxExp ->
    exists m' ex' acc,
      big.round prec neg m ex = (big.Ffinite neg m' ex', acc) /\ ex <= ex'.
Proof.
  intros prec neg m ex H. unfold big.round.
  destruct (Z.geb_spec ex big.MaxExp) as [G|G]; [lia|].
  repeat match goal with
         | |- context [if ?c then _ else _] => destruct c
         end;
    do 3 eexists; (split; [reflexivity | lia]).
Qed.

(** The leading bit of a float64 is at most that of 2^1023. *)
Lemma beyond_float64 :
  forall neg m ex, 1024 < ex -> ~ representable (big.Ffinite neg m ex).
Proof.
  intros neg m ex H (g & V & R).
  destruct g as [s|s| |s mg eg]; try contradiction.
  pose proof (valid_finite _ _ _ V).
  pose proof (represents_leading_bit _ _ _ _ _ _ R).
  lia.
Qed.

(** C1: for every path, Validate on the Known Number whose payload is the
    decimal 1.79769313486231570814527423731704356798070e+1000 returns exactly
    one diagnostic, of severity Error, attributed to that path; so it does
    when the payload holds the decimal rounded to any number of mantissa
    bits. *)
Theorem Validate_decimal_1e1000 :
  forall (t : basetypes.Float64Type) (ctx : context.Context) (p : path.Path),
    one_error_at p
      (basetypes.Float64Type.Validate t ctx (NewNumber decimal_1e1000) p) /\
    forall prec : positive,
      one_error_at p
        (basetypes.Float64Type.Validate t ctx
           (NewNumber (decimal_1e1000_at prec)) p).
Proof.
  intros t ctx p.
  assert (S : big.size decimal_1e1000_digits = 3323) by (vm_compute; reflexivity).
  assert (F : forall x m ex, x = big.Ffinite false m ex -> 1024 < ex ->
              one_error_at p
                (basetypes.Float64Type.Validate t ctx (NewNumber x) p)).
  { intros x m ex -> L. rewrite Validate_NewNumber.
    assert (E : narrowing_fails (big.Ffinite false m ex) = true)
      by (apply narrowing_fails_iff, beyond_float64; lia).
    rewrite E. eexists. split; [reflexivity|]. split; reflexivity. }
  split.
  - apply (F _ decimal_1e1000_digits (big.size decimal_1e1000_digits));
      [reflexivity | lia].
  - intros prec. unfold decimal_1e1000_at.
    destruct (round_finite (Z.pos prec) false decimal_1e1000_digits
                (big.size decimal_1e1000_digits))
      as (m' & ex' & acc & R & L);
      [rewrite S; unfold big.MaxExp; lia|].
    rewrite R. cbn [fst]. apply (F _ m' ex'); [reflexivity | lia].
Qed.

(** ** Conversion, failure reports and the round trip *)

(** C2, amended: ValueFromTerraform has four outcomes, and every wire value
    meets exactly one.  Marked Unknown: the Unknown Float64 value, no error.
    Null: the Null Float64 value, no error.  Known, not null, holding a
    big.Float, as every such Number does: the Known Float64 value of exactly
    that value with no error, or no value and the precision-loss error, the
    latter exactly when no float64 has that value.  Known, not null, holding
    anything else: no value and the error of [As]. *)
Theorem ValueFromTerraform_four_branches :
  forall (t : basetypes.Float64Type) (ctx : context.Context)
         (in_ : tftypes.Value),
    let r := basetypes.Float64Type.ValueFromTerraform t ctx in_ in
    ((tftypes.IsKnown in_ = false /\
      r = Ok (Some (basetypes.as_Value basetypes.NewFloat64Unknown), None))
     \/
     (tftypes.IsKnown in_ = true /\ tftypes.IsNull in_ = true /\
      r = Ok (Some (basetypes.as_Value basetypes.NewFloat64Null), None))
     \/
     (exists x,
         tftypes.value_of in_ = tftypes.Vnumber x /\
         ((representable x /\
           exists f,
             r = Ok (Some (basetypes.as_Value (basetypes.NewFloat64Value f)),
                     None) /\
             math.valid f = true /\ represents f x)
          \/
          (~ representable x /\
           r = Ok (None,
                   Some (Errorf narrowing_format [fmt.OfFloat (Some x)])))))
     \/
     (tftypes.IsKnown in_ = true /\ tftypes.IsNull in_ = false /\
      tftypes.number_payload in_ = false /\
      r = Ok (None, Some (ErrAs (tftypes.CantUnmarshal (tftypes.Type' in_))))))
    /\
    (tftypes.Type' in_ = Some tftypes.Number ->
     tftypes.number_payload in_ = true ->
     tftypes.IsKnown in_ = true ->
     tftypes.IsNull in_ = false ->
     exists x, in_ = NewNumber x).
Proof.
  intros t ctx [typ pl] r. unfold r. clear r. split.
  - destruct pl as [ | | b | x | s | l | m].
    + right. left. repeat split.
    + left. repeat split.
    + right. right. right. repeat split.
    + right. right. left. exists x. split; [reflexivity|].
      rewrite ValueFromTerraform_number.
      destruct (narrowing_fails x) eqn:E.
      * right. split; [apply narrowing_fails_iff; exact E | reflexivity].
      * left. split; [apply narrowing_succeeds_iff; exact E|].
        exists (fst (big.Float64 x)). split; [reflexivity|].
        unfold narrowing_fails in E.
        destruct (big.Float64 x) as [f acc] eqn:F. cbn [fst snd] in *.
        destruct acc; try discriminate E.
        apply Float64_Exact. exact F.
    + right. right. right. repeat split.
    + right. right. right. repeat split.
    + right. right. right. repeat split.
  - intros T W K N. cbn in T. subst typ.
    destruct pl; try discriminate. eexists. reflexivity.
Qed.

Lemma ValueFromTerraform_four_branches_witness :
  exists x, NewNumber (big.Ffinite false 3 2) = NewNumber x.
Proof.
  apply (proj2 (ValueFromTerraform_four_branches basetypes.mkFloat64Type
                  context.Background (NewNumber (big.Ffinite false 3 2))));
    reflexivity.
Defined.

(** C2 as stated fails: a known String is none of the three branches; the
    conversion ends in the error of [As], which is neither a value nor the
    precision-loss error. *)
Lemma ValueFromTerraform_fourth_outcome :
  ~ three_branch_outcome
      (basetypes.Float64Type.ValueFromTerraform basetypes.mkFloat64Type
         context.Background
         (tftypes.mkValue (Some tftypes.String) (tftypes.Vstring "1.5"))).
Proof.
  intros [H | [H | [[f H] | [x H]]]]; discriminate H.
Qed.

(** ** The message of a narrowing failure *)

Lemma contains_append :
  forall needle before s,
    contains needle s = true -> contains needle (before ++ s) = true.
Proof.
  intros needle before s H. induction before as [|c before IH].
  - exact H.
  - cbn [append contains]. rewrite IH. apply orb_true_r.
Qed.

Lemma append_empty_r : forall s : string, (s ++ "")%string = s.
Proof.
  intros s. induction s as [|c s IH]; [reflexivity|].
  cbn [append]. rewrite IH. reflexivity.
Qed.

Lemma render_narrowing :
  forall format x,
    render [fmt.Sprintf format [fmt.OfFloat (Some x)]]
    = Some (Sprintf_s format (Format_s x)).
Proof.
  intros format x. cbn [render]. rewrite append_empty_r. reflexivity.
Qed.

Lemma narrowing_message_parts :
  forall x,
    narrowing_message x
    = ("Value " ++ Format_s x
       ++ " cannot be represented as a 64-bit floating point.")%string.
Proof.
  intros x. reflexivity.
Qed.

(** C3, amended: when the narrowing fails, which is exactly when no float64
    has the value of the wire number, Validate reports it as one Error
    diagnostic at the given path whose text is not the provider-error text
    and names the 64-bit floating point target; ValueFromTerraform collects
    nothing: it returns no value and an error of the same text. *)
Theorem narrowing_failure_reports :
  forall (t : basetypes.Float64Type) (ctx : context.Context) (p : path.Path)
         (x : big.Float),
    narrowing_fails x = true ->
    ~ representable x /\
    (exists d,
        basetypes.Float64Type.Validate t ctx (NewNumber x) p = Ok [d] /\
        diag.severity d = diag.SeverityError /\
        diag.attribute_path d = Some p /\
        render (diag.detail d) = Some (narrowing_message x)) /\
    (exists format args,
        basetypes.Float64Type.ValueFromTerraform t ctx (NewNumber x)
        = Ok (None, Some (Errorf format args)) /\
        render [fmt.Sprintf format args] = Some (narrowing_message x)) /\
    String.prefix basetypes.Float64Type.provider_error (narrowing_message x)
    = false /\
    contains "cannot be represented as a 64-bit floating point"
      (narrowing_message x) = true.
Proof.
  intros t ctx p x F. split; [apply narrowing_fails_iff; exact F|].
  rewrite Validate_NewNumber. unfold NewNumber.
  rewrite ValueFromTerraform_number, F. split; [|split; [|split]].
  - eexists. split; [reflexivity|]. split; [reflexivity|].
    split; [reflexivity|]. apply render_narrowing.
  - do 2 eexists. split; [reflexivity | apply render_narrowing].
  - reflexivity.
  - rewrite narrowing_message_parts.
    apply (contains_append _ "Value "), contains_append. reflexivity.
Qed.

Lemma narrowing_failure_reports_witness :
  let x := big.Ffinite false 1 (-1074) in
  ~ representable x /\
  (exists d,
      basetypes.Float64Type.Validate basetypes.mkFloat64Type
        context.Background (NewNumber x) (path.Root "test") = Ok [d] /\
      diag.severity d = diag.SeverityError /\
      diag.attribute_path d = Some (path.Root "test") /\
      render (diag.detail d) = Some (narrowing_message x)) /\
  (exists format args,
      basetypes.Float64Type.ValueFromTerraform basetypes.mkFloat64Type
        context.Background (NewNumber x)
      = Ok (None, Some (Errorf format args)) /\
      render [fmt.Sprintf format args] = Some (narrowing_message x)) /\
  String.prefix basetypes.Float64Type.provider_error (narrowing_message x)
  = false /\
  contains "cannot be represented as a 64-bit floating point"
    (narrowing_message x) = true.
Proof.
  apply (narrowing_failure_reports basetypes.mkFloat64Type context.Background
           (path.Root "test") (big.Ffinite false 1 (-1074))).
  reflexivity.
Defined.

(** C3 as stated fails on the decimal
    1.79769313486231570814527423731704356798070e+1000, held exactly or in
    512 bits.  ValueFromTerraform hands back no value at all, only an error;
    and the message of both methods shows the number through a verb that
    big.Float does not know, cut to ten digits: the decimal is not in it. *)
Lemma narrowing_failure_neither_collected_nor_exact :
  narrowing_fails decimal_1e1000 = true /\
  ~ yields_value
      (basetypes.Float64Type.ValueFromTerraform basetypes.mkFloat64Type
         context.Background (NewNumber decimal_1e1000)) /\
  narrowing_message decimal_1e1000
  = "Value %!s(*big.Float=1.797693135e+1000) cannot be represented as a 64-bit floating point."%string /\
  contains decimal_1e1000_text (narrowing_message decimal_1e1000) = false /\
  narrowing_message (decimal_1e1000_at 512) = narrowing_message decimal_1e1000.
Proof.
  assert (E : narrowing_fails decimal_1e1000 = true) by (vm_compute; reflexivity).
  split; [exact E|]. split.
  - unfold NewNumber. rewrite ValueFromTerraform_number, E.
    intros (v & e & H). discriminate H.
  - split; [vm_compute; reflexivity|].
    split; vm_compute; reflexivity.
Qed.

(** C4, amended: for every Known Float64 value whose payload is not NaN, the
    wire encoding exists and ValueFromTerraform decodes it, without error, to
    a value equal to the original. *)
Theorem Float64Value_round_trip :
  forall (ctx : context.Context) (f : math.float64),
    math.valid f = true ->
    math.IsNaN f = false ->
    round_trips ctx (basetypes.NewFloat64Value f).
Proof.
  intros ctx f V N. unfold round_trips.
  unfold basetypes.Float64Value.ToTerraformValue.
  cbn [basetypes.NewFloat64Value basetypes.state basetypes.value].
  destruct (big.NewFloat f) as [x|] eqn:E.
  - exists (tftypes.mkValue (Some tftypes.Number) (tftypes.Vnumber x)).
    exists (basetypes.as_Value (basetypes.NewFloat64Value f)).
    split; [reflexivity|]. split.
    + rewrite ValueFromTerraform_number. unfold narrowing_fails.
      rewrite (Float64_NewFloat f x V E). reflexivity.
    + cbn. apply eqb_refl_not_NaN. exact N.
  - destruct f; discriminate.
Qed.

Lemma Float64Value_round_trip_witness :
  round_trips context.Background
    (basetypes.NewFloat64Value (math.F64finite false 6755399441055744 (-51))).
Proof.
  apply (Float64Value_round_trip context.Background
           (math.F64finite false 6755399441055744 (-51)));
    reflexivity.
Defined.

(** C4 as stated fails on a NaN payload: it has no wire encoding, and no
    value equals it. *)
Lemma NaN_does_not_round_trip :
  ~ round_trips context.Background (basetypes.NewFloat64Value math.F64nan).
Proof.
  intros (w & v' & H & _). discriminate H.
Qed.

(** ** The narrowing test, bit by bit *)

Lemma round_accuracy :
  forall prec neg m ex,
    0 < prec ->
    (snd (big.round prec neg m ex) = big.Exact <->
     big.size m <= prec \/ Z.pos m mod 2 ^ (big.size m - prec) = 0).
Proof.
  intros prec neg m ex Hp.
  destruct (big.round prec neg m ex) as [r acc] eqn:R. cbn [snd]. split.
  - intros ->. apply round_Exact in R; [|exact Hp].
    destruct R as (m' & _ & S1 & S2 & E).
    destruct (Z_le_gt_dec (big.size m) prec) as [L|G]; [left; exact L|].
    right. rewrite E.
    replace (big.size m - big.size m')
      with ((prec - big.size m') + (big.size m - prec)) by lia.
    rewrite Z.pow_add_r, Z.mul_assoc by lia.
    apply Z.mod_mul. apply Z.pow_nonzero; lia.
  - intros H. destruct acc; try reflexivity;
      apply round_inexact in R; try exact Hp; try discriminate;
      destruct R as [L Md]; destruct H as [H|H]; try lia; contradiction.
Qed.

Lemma Float64_finite_accuracy :
  forall neg m ex,
    snd (big.Float64 (big.Ffinite neg m ex)) = big.Exact <->
    0 < float64_precision ex /\ ex <= 1024 /\
    snd (big.round (float64_precision ex) neg m ex) = big.Exact.
Proof.
  intros neg m ex. cbn [big.Float64]. unfold float64_precision.
  unfold math.emin, math.emax, math.bias, math.mbits.
  destruct (Z.ltb_spec (ex - 1) (1 - 1023)) as [D|D]; cbn [andb].
  - destruct (Z.ltb_spec (52 + 1 - (1 - 1023) + (ex - 1)) 0) as [N0|N0].
    { cbn [orb]. destruct neg; cbn [snd]; split;
        [discriminate | lia | discriminate | lia]. }
    destruct (Z.eqb_spec (52 + 1 - (1 - 1023) + (ex - 1)) 0) as [Z0|Z0].
    { cbn [orb andb].
      destruct (big.sticky m (big.size m - 1) =? 0); destruct neg; cbn [snd];
        split; try discriminate; lia. }
    cbn [orb andb].
    destruct (big.round (52 + 1 - (1 - 1023) + (ex - 1)) neg m ex)
      as [r racc] eqn:Rd.
    cbn [snd].
    destruct r as [s|s|s rm rex].
    + split.
      * destruct neg; discriminate.
      * intros (_ & _ & ->). apply round_Exact in Rd; [|lia].
        destruct Rd as (m' & Hr & _). discriminate Hr.
    + split.
      * destruct neg; discriminate.
      * intros (_ & _ & ->). apply round_Exact in Rd; [|lia].
        destruct Rd as (m' & Hr & _). discriminate Hr.
    + destruct (Z.gtb_spec (rex - 1) 1023) as [O|O].
      * split; [destruct neg; discriminate|].
        intros (_ & E & ->). apply round_Exact in Rd; [|lia].
        destruct Rd as (m' & Hr & _). injection Hr as -> -> ->. lia.
      * destruct (Z.ltb_spec (rex - 1) (1 - 1023)); cbn [snd];
          (split; [intros ->; repeat split; lia | intros (_ & _ & ->); reflexivity]).
  - destruct (big.round (52 + 1) neg m ex) as [r racc] eqn:Rd.
    cbn [snd].
    destruct r as [s|s|s rm rex].
    + split.
      * destruct neg; discriminate.
      * intros (_ & _ & ->). apply round_Exact in Rd; [|lia].
        destruct Rd as (m' & Hr & _). discriminate Hr.
    + split.
      * destruct neg; discriminate.
      * intros (_ & _ & ->). apply round_Exact in Rd; [|lia].
        destruct Rd as (m' & Hr & _). discriminate Hr.
    + pose proof (round_exp _ _ _ _ _ _ _ _ Rd) as [_ Le].
      destruct (Z.gtb_spec (rex - 1) 1023) as [O|O].
      * split; [destruct neg; discriminate|].
        intros (_ & E & ->). apply round_Exact in Rd; [|lia].
        destruct Rd as (m' & Hr & _). injection Hr as -> -> ->. lia.
      * destruct (Z.ltb_spec (rex - 1) (1 - 1023)); cbn [snd];
          (split; [intros ->; repeat split; lia | intros (_ & _ & ->); reflexivity]).
Qed.

Lemma Accuracy_int_zero :
  forall acc, (big.Accuracy_int acc =? 0) = true <-> acc = big.Exact.
Proof.
  intros []; cbn; split; intro H; try discriminate H; reflexivity.
Qed.

Lemma narrowing_fails_fits :
  forall x : big.Float, narrowing_fails x = negb (fits x).
Proof.
  intros [neg|neg|neg m ex]; try reflexivity.
  unfold narrowing_fails. cbn [fits].
  destruct (big.Accuracy_int (snd (big.Float64 (big.Ffinite neg m ex))) =? 0)
    eqn:A.
  - apply Accuracy_int_zero, Float64_finite_accuracy in A.
    destruct A as (P & E & R). apply round_accuracy in R; [|exact P].
    cbn [negb]. symmetry. apply negb_false_iff.
    unfold math.emax, math.bias.
    rewrite ?andb_true_iff, ?orb_true_iff, ?Z.ltb_lt, ?Z.leb_le, ?Z.eqb_eq.
    lia.
  - cbn [negb]. symmetry. apply negb_true_iff.
    destruct ((0 <? float64_precision ex) && (ex <=? math.emax + 1)
              && ((big.size m <=? float64_precision ex)
                  || (Z.pos m mod 2 ^ (big.size m - float64_precision ex) =? 0)))
      eqn:F; [|reflexivity].
    exfalso.
    unfold math.emax, math.bias in F.
    rewrite ?andb_true_iff, ?orb_true_iff, ?Z.ltb_lt, ?Z.leb_le, ?Z.eqb_eq in F.
    destruct F as [[P E] B].
    assert (X : snd (big.Float64 (big.Ffinite neg m ex)) = big.Exact).
    { apply Float64_finite_accuracy. repeat split; try lia.
      apply round_accuracy; assumption. }
    rewrite X in A. discriminate A.
Qed.

(** X1: Validate passes a Number payload, and ValueFromTerraform converts
    it, exactly when it is a zero, an infinity, or a finite number whose
    exponent is in the float64 range and whose mantissa has no set bit
    beyond the bits float64 offers at that exponent (53, fewer for
    denormals); otherwise both report the narrowing failure. *)
Theorem narrowing_decided_by_bits :
  forall (t : basetypes.Float64Type) (ctx : context.Context) (p : path.Path)
         (x : big.Float),
    basetypes.Float64Type.Validate t ctx (NewNumber x) p
    = (if fits x then Ok [] else Ok [narrowing_error p x]) /\
    basetypes.Float64Type.ValueFromTerraform t ctx (NewNumber x)
    = (if fits x
       then Ok (Some (basetypes.as_Value
                        (basetypes.NewFloat64Value (fst (big.Float64 x)))),
                None)
       else Ok (None, Some (Errorf narrowing_format [fmt.OfFloat (Some x)]))).
Proof.
  intros t ctx p x. rewrite Validate_NewNumber. unfold NewNumber.
  rewrite ValueFromTerraform_number, narrowing_fails_fits.
  destruct (fits x); split; reflexivity.
Qed.

(** ** What Validate and ValueFromTerraform return, over all inputs *)

(** X2: Validate always returns, with at most one diagnostic; a diagnostic it
    returns is an Error with the summary "Float64 Type Validation Error",
    attributed to the path it was given. *)
Theorem Validate_at_most_one_error :
  forall (t : basetypes.Float64Type) (ctx : context.Context)
         (in_ : tftypes.Value) (p : path.Path),
    exists diags,
      basetypes.Float64Type.Validate t ctx in_ p = Ok diags /\
      (diags = [] \/ exists detail, diags = [attribute_error p detail]).
Proof.
  intros t ctx [typ pl] p. unfold basetypes.Float64Type.Validate.
  destruct typ as [ty|]; [|eexists; split; [reflexivity | left; reflexivity]].
  cbn [tftypes.Type'].
  destruct (tftypes.Equal_Number ty);
    [|eexists; split; [reflexivity | right; eexists; reflexivity]].
  destruct pl; cbn;
    try (eexists; split; [reflexivity | left; reflexivity]);
    try (eexists; split; [reflexivity | right; eexists; reflexivity]).
  destruct (big.Float64 f) as [g acc].
  destruct (negb (big.Accuracy_int acc =? 0));
    eexists; (split; [reflexivity|]);
    [right; eexists; reflexivity | left; reflexivity].
Qed.

(** X3: ValueFromTerraform always returns, and returns either a value and a
    nil error or no value and an error, never both and never neither; a value
    it returns is a Float64Value whose payload is a float64 other than
    NaN. *)
Theorem ValueFromTerraform_value_or_error :
  forall (t : basetypes.Float64Type) (ctx : context.Context)
         (in_ : tftypes.Value),
    (exists state f,
        basetypes.Float64Type.ValueFromTerraform t ctx in_
        = Ok (Some (attr.Float64Value state f), None) /\
        math.valid f = true /\ math.IsNaN f = false) \/
    (exists e,
        basetypes.Float64Type.ValueFromTerraform t ctx in_ = Ok (None, Some e)).
Proof.
  intros t ctx [typ pl].
  destruct pl as [ | | b | x | s | l | m];
    try (right; eexists; reflexivity);
    try (left; do 2 eexists; split; [reflexivity | split; reflexivity]).
  rewrite ValueFromTerraform_number.
  destruct (narrowing_fails x) eqn:E; [right; eexists; reflexivity|].
  left. exists attr.ValueStateKnown, (fst (big.Float64 x)).
  split; [reflexivity|].
  unfold narrowing_fails in E.
  destruct (big.Float64 x) as [f acc] eqn:F. cbn [fst snd] in *.
  destruct acc; try discriminate E.
  destruct (Float64_Exact x f F) as [V R]. split; [exact V|].
  destruct f; try reflexivity. destruct x; contradiction.
Qed.

(** X4: ValueFromTerraform makes no check of its own on the payload: on a
    known, non-null value whose payload is not a big.Float it returns no value
    and the error of [As], unchanged, whatever the wire type says. *)
Theorem ValueFromTerraform_passes_As_error :
  forall (t : basetypes.Float64Type) (ctx : context.Context)
         (in_ : tftypes.Value),
    tftypes.number_payload in_ = false ->
    basetypes.Float64Type.ValueFromTerraform t ctx in_
    = Ok (None, Some (ErrAs (tftypes.CantUnmarshal (tftypes.Type' in_)))).
Proof.
  intros t ctx [typ pl] H. destruct pl; try discriminate H; reflexivity.
Qed.

Lemma ValueFromTerraform_passes_As_error_witness :
  basetypes.Float64Type.ValueFromTerraform basetypes.mkFloat64Type
    context.Background
    (tftypes.mkValue (Some tftypes.String) (tftypes.Vstring "1.5"))
  = Ok (None, Some (ErrAs (tftypes.CantUnmarshal (Some tftypes.String)))).
Proof.
  apply (ValueFromTerraform_passes_As_error basetypes.mkFloat64Type
           context.Background
           (tftypes.mkValue (Some tftypes.String) (tftypes.Vstring "1.5"))).
  reflexivity.
Defined.

(** X5: on a Number that [tftypes.NewValue] can make, the conversion branch
    of Validate is never taken: the result is empty or the one narrowing
    Error, so no diagnostic carries the provider-error text. *)
Theorem Validate_Number_never_blames_provider :
  forall (t : basetypes.Float64Type) (ctx : context.Context)
         (in_ : tftypes.Value) (p : path.Path),
    tftypes.Type' in_ = Some tftypes.Number ->
    tftypes.number_payload in_ = true ->
    basetypes.Float64Type.Validate t ctx in_ p = Ok [] \/
    exists x,
      in_ = NewNumber x /\
      basetypes.Float64Type.Validate t ctx in_ p = Ok [narrowing_error p x] /\
      text_contains "error in the provider" (diag.detail (narrowing_error p x))
      = false.
Proof.
  intros t ctx [typ pl] p T W. cbn in T. subst typ.
  destruct pl as [ | | b | x | s | l | m]; try discriminate W;
    try (left; reflexivity).
  change (tftypes.mkValue (Some tftypes.Number) (tftypes.Vnumber x))
    with (NewNumber x).
  rewrite Validate_NewNumber.
  destruct (narrowing_fails x); [right | left; reflexivity].
  exists x. repeat split.
Qed.

Lemma Validate_Number_never_blames_provider_witness :
  basetypes.Float64Type.Validate basetypes.mkFloat64Type context.Background
    (NewNumber (big.Ffinite false 1 (-1074))) (path.Root "test") = Ok [] \/
  exists x,
    NewNumber (big.Ffinite false 1 (-1074)) = NewNumber x /\
    basetypes.Float64Type.Validate basetypes.mkFloat64Type context.Background
      (NewNumber (big.Ffinite false 1 (-1074))) (path.Root "test")
    = Ok [narrowing_error (path.Root "test") x] /\
    text_contains "error in the provider"
      (diag.detail (narrowing_error (path.Root "test") x))
    = false.
Proof.
  apply (Validate_Number_never_blames_provider basetypes.mkFloat64Type
           context.Background (NewNumber (big.Ffinite false 1 (-1074)))
           (path.Root "test")); reflexivity.
Defined.

(** X6: Validate passes a Number payload exactly when some float64 has
    exactly its value. *)
Theorem Validate_passes_iff_representable :
  forall (t : basetypes.Float64Type) (ctx : context.Context) (p : path.Path)
         (x : big.Float),
    basetypes.Float64Type.Validate t ctx (NewNumber x) p = Ok [] <->
    representable x.
Proof.
  intros t ctx p x. rewrite Validate_NewNumber, <- narrowing_succeeds_iff.
  destruct (narrowing_fails x); split; intro H; try discriminate H; reflexivity.
Qed.

(** X7: on every value [tftypes.NewValue] can make, a Validate without
    diagnostics means ValueFromTerraform returns a value and a nil error.
    The converse fails: an unknown String converts to the Unknown value but
    does not validate. *)
Theorem Validate_pass_implies_conversion :
  forall (t : basetypes.Float64Type) (ctx : context.Context) (p : path.Path),
    (forall in_,
        well_formed in_ = true ->
        basetypes.Float64Type.Validate t ctx in_ p = Ok [] ->
        exists v,
          basetypes.Float64Type.ValueFromTerraform t ctx in_
          = Ok (Some v, None)) /\
    (exists in_,
        well_formed in_ = true /\
        basetypes.Float64Type.ValueFromTerraform t ctx in_
        = Ok (Some (basetypes.as_Value basetypes.NewFloat64Unknown), None) /\
        basetypes.Float64Type.Validate t ctx in_ p <> Ok []).
Proof.
  intros t ctx p. split.
  - intros [typ pl] W V. destruct typ as [ty|].
    + destruct (tftypes.Equal_Number ty) eqn:E.
      * apply Equal_Number_true in E. subst ty.
        destruct pl as [ | | b | x | s | l | m]; try discriminate W;
          try (eexists; reflexivity).
        change (tftypes.mkValue (Some tftypes.Number) (tftypes.Vnumber x))
          with (NewNumber x) in V.
        rewrite Validate_NewNumber in V. rewrite ValueFromTerraform_number.
        destruct (narrowing_fails x); [discriminate V | eexists; reflexivity].
      * unfold basetypes.Float64Type.Validate in V. cbn [tftypes.Type'] in V.
        rewrite E in V. discriminate V.
    + destruct pl; try discriminate W. eexists. reflexivity.
  - exists (tftypes.mkValue (Some tftypes.String) tftypes.Vunknown).
    repeat split. discriminate.
Qed.

Lemma Validate_pass_implies_conversion_witness :
  exists v,
    basetypes.Float64Type.ValueFromTerraform basetypes.mkFloat64Type
      context.Background (NewNumber (big.Ffinite false 3 2))
    = Ok (Some v, None).
Proof.
  apply (proj1 (Validate_pass_implies_conversion basetypes.mkFloat64Type
                  context.Background (path.Root "test"))
           (NewNumber (big.Ffinite false 3 2))); reflexivity.
Defined.

(** ** Edges of the float64 range *)

Lemma conversion_of_fitting :
  forall t ctx x,
    fits x = true ->
    exists f,
      basetypes.Float64Type.ValueFromTerraform t ctx (NewNumber x)
      = Ok (Some (basetypes.as_Value (basetypes.NewFloat64Value f)), None) /\
      math.valid f = true /\ represents f x.
Proof.
  intros t ctx x F. unfold NewNumber. rewrite ValueFromTerraform_number.
  pose proof (narrowing_fails_fits x) as N. rewrite F in N. cbn in N.
  rewrite N. exists (fst (big.Float64 x)). split; [reflexivity|].
  unfold narrowing_fails in N.
  destruct (big.Float64 x) as [f acc] eqn:E. cbn [fst snd] in *.
  destruct acc; try discriminate N. apply Float64_Exact. exact E.
Qed.

Lemma rejection_of_unfitting :
  forall t ctx p x,
    fits x = false ->
    basetypes.Float64Type.Validate t ctx (NewNumber x) p
    = Ok [narrowing_error p x] /\
    basetypes.Float64Type.ValueFromTerraform t ctx (NewNumber x)
    = Ok (None, Some (Errorf narrowing_format [fmt.OfFloat (Some x)])).
Proof.
  intros t ctx p x F. rewrite Validate_NewNumber. unfold NewNumber.
  rewrite ValueFromTerraform_number, narrowing_fails_fits, F.
  split; reflexivity.
Qed.

(** X8: signed zeros and infinities pass Validate, and ValueFromTerraform
    converts them to the float64 zero or infinity of the same sign. *)
Theorem zeros_and_infinities_convert :
  forall (t : basetypes.Float64Type) (ctx : context.Context) (p : path.Path)
         (neg : bool),
    basetypes.Float64Type.Validate t ctx (NewNumber (big.Fzero neg)) p = Ok [] /\
    basetypes.Float64Type.ValueFromTerraform t ctx (NewNumber (big.Fzero neg))
    = Ok (Some (basetypes.as_Value
                  (basetypes.NewFloat64Value (math.F64zero neg))), None) /\
    basetypes.Float64Type.Validate t ctx (NewNumber (big.Finf neg)) p = Ok [] /\
    basetypes.Float64Type.ValueFromTerraform t ctx (NewNumber (big.Finf neg))
    = Ok (Some (basetypes.as_Value
                  (basetypes.NewFloat64Value (math.Inf neg))), None).
Proof.
  intros t ctx p neg. repeat split.
Qed.

(** X9: a finite non-zero wire number of magnitude below 2^-1074 (binary
    exponent under -1073) or of magnitude 2^1024 or more (binary exponent over
    1024) fails both methods, whatever its mantissa. *)
Theorem out_of_range_is_rejected :
  forall (t : basetypes.Float64Type) (ctx : context.Context) (p : path.Path)
         (neg : bool) (mant : positive) (exp : Z),
    exp < -1073 \/ 1024 < exp ->
    let x := big.Ffinite neg mant exp in
    basetypes.Float64Type.Validate t ctx (NewNumber x) p
    = Ok [narrowing_error p x] /\
    basetypes.Float64Type.ValueFromTerraform t ctx (NewNumber x)
    = Ok (None, Some (Errorf narrowing_format [fmt.OfFloat (Some x)])).
Proof.
  intros t ctx p neg mant exp H x. apply rejection_of_unfitting.
  unfold x. cbn [fits]. unfold float64_precision.
  cbv [math.emin math.emax math.bias math.mbits].
  destruct (Z.ltb_spec (exp - 1) (1 - 1023)).
  - destruct (Z.ltb_spec 0 (52 + 1 - (1 - 1023) + (exp - 1))); [|reflexivity].
    destruct (Z.leb_spec exp (1023 + 1)); [lia | reflexivity].
  - destruct (Z.leb_spec exp (1023 + 1)); [lia|].
    apply andb_false_intro1, andb_false_intro2. reflexivity.
Qed.

Lemma out_of_range_is_rejected_witness :
  let x := big.Ffinite false 1 1025 in
  basetypes.Float64Type.Validate basetypes.mkFloat64Type context.Background
    (NewNumber x) (path.Root "test")
  = Ok [narrowing_error (path.Root "test") x] /\
  basetypes.Float64Type.ValueFromTerraform basetypes.mkFloat64Type
    context.Background (NewNumber x)
  = Ok (None, Some (Errorf narrowing_format [fmt.OfFloat (Some x)])).
Proof.
  apply (out_of_range_is_rejected basetypes.mkFloat64Type context.Background
           (path.Root "test") false 1 1025).
  right. lia.
Defined.

Lemma size_le_of_le_pow2 :
  forall m k, 0 <= k -> Z.pos m <= 2 ^ k -> big.size m <= k + 1.
Proof.
  intros m k Hk H. pose proof (size_bounds m) as [L _].
  pose proof (size_pos m).
  destruct (Z_le_gt_dec (big.size m) (k + 1)) as [G|G]; [exact G|].
  exfalso. assert (2 ^ (k + 1) <= 2 ^ (big.size m - 1))
    by (apply Z.pow_le_mono_r; lia).
  assert (2 ^ k < 2 ^ (k + 1)) by (apply Z.pow_lt_mono_r; lia). lia.
Qed.

Lemma fits_of_int :
  forall n, - 2 ^ 53 <= n <= 2 ^ 53 -> fits (Float_of_int n) = true.
Proof.
  intros n H.
  assert (F : forall s m, Z.pos m <= 2 ^ 53 ->
                          fits (big.Ffinite s m (big.size m)) = true).
  { intros s m L. pose proof (size_le_of_le_pow2 m 53 ltac:(lia) L) as S.
    pose proof (size_pos m) as P. pose proof (size_bounds m) as [B _].
    cbn [fits]. unfold float64_precision.
    cbv [math.emin math.emax math.bias math.mbits].
    destruct (Z.ltb_spec (big.size m - 1) (1 - 1023)); [lia|].
    rewrite ?andb_true_iff, ?orb_true_iff, ?Z.ltb_lt, ?Z.leb_le, ?Z.eqb_eq.
    repeat split; try lia.
    destruct (Z_le_gt_dec (big.size m) 53) as [Le|Gt]; [left; lia|].
    right. assert (E : big.size m = 54) by lia. rewrite E in *.
    assert (M : Z.pos m = 2 ^ 53) by (change (54 - 1) with 53 in B; lia).
    rewrite M. reflexivity. }
  destruct n as [|m|m]; [reflexivity | apply F; lia | apply F; lia].
Qed.

(** X10: a wire number that is an integer of magnitude at most 2^53 passes
    Validate and converts, without error, to the float64 of exactly that
    value; 2^53 + 1 already fails. *)
Theorem integers_up_to_2_53_convert :
  forall (t : basetypes.Float64Type) (ctx : context.Context) (p : path.Path),
    (forall n : Z,
        - 2 ^ 53 <= n <= 2 ^ 53 ->
        basetypes.Float64Type.Validate t ctx (NewNumber (Float_of_int n)) p
        = Ok [] /\
        exists f,
          basetypes.Float64Type.ValueFromTerraform t ctx
            (NewNumber (Float_of_int n))
          = Ok (Some (basetypes.as_Value (basetypes.NewFloat64Value f)), None) /\
          math.valid f = true /\ represents f (Float_of_int n)) /\
    basetypes.Float64Type.Validate t ctx
      (NewNumber (Float_of_int (2 ^ 53 + 1))) p
    = Ok [narrowing_error p (Float_of_int (2 ^ 53 + 1))].
Proof.
  intros t ctx p. split.
  - intros n H. pose proof (fits_of_int n H) as F. split.
    + rewrite Validate_NewNumber, narrowing_fails_fits, F. reflexivity.
    + apply conversion_of_fitting. exact F.
  - apply rejection_of_unfitting. reflexivity.
Qed.

Lemma integers_up_to_2_53_convert_witness :
  basetypes.Float64Type.Validate basetypes.mkFloat64Type context.Background
    (NewNumber (Float_of_int (-9007199254740992))) (path.Root "test")
  = Ok [] /\
  exists f,
    basetypes.Float64Type.ValueFromTerraform basetypes.mkFloat64Type
      context.Background (NewNumber (Float_of_int (-9007199254740992)))
    = Ok (Some (basetypes.as_Value (basetypes.NewFloat64Value f)), None) /\
    math.valid f = true /\
    represents f (Float_of_int (-9007199254740992)).
Proof.
  apply (proj1 (integers_up_to_2_53_convert basetypes.mkFloat64Type
                  context.Background (path.Root "test"))
           (-9007199254740992)).
  split; vm_compute; discriminate.
Defined.

(** ** The value alone decides *)

Lemma represents_Neg :
  forall f x, represents f x -> represents (math.Neg f) (Float_Neg x).
Proof.
  intros [s|s| |s m e] [n|n|n mant ex] H; try contradiction; cbn in *.
  - congruence.
  - congruence.
  - destruct H as [-> H]. split; [reflexivity | exact H].
Qed.

Lemma valid_Neg : forall f, math.valid (math.Neg f) = math.valid f.
Proof.
  intros [s|s| |s m e]; reflexivity.
Qed.

Lemma fits_Neg : forall x, fits (Float_Neg x) = fits x.
Proof.
  intros [n|n|n m ex]; reflexivity.
Qed.

(** The float64 that a passing narrowing returns is the one of that value. *)
Lemma Float64_of_represented :
  forall x f,
    math.valid f = true -> represents f x -> big.Float64 x = (f, big.Exact).
Proof.
  intros x f V R. destruct (big.Float64 x) as [g acc] eqn:E.
  assert (A : acc = big.Exact).
  { destruct acc; try reflexivity; exfalso;
      apply (Float64_inexact x g _ E); try discriminate; exists f; auto. }
  subst acc. destruct (Float64_Exact x g E) as [Vg Rg].
  rewrite (represents_unique g f x Vg V Rg R). reflexivity.
Qed.

Lemma conversion_of_represented :
  forall t ctx x f,
    math.valid f = true -> represents f x ->
    basetypes.Float64Type.ValueFromTerraform t ctx (NewNumber x)
    = Ok (Some (basetypes.as_Value (basetypes.NewFloat64Value f)), None).
Proof.
  intros t ctx x f V R. unfold NewNumber.
  rewrite ValueFromTerraform_number. unfold narrowing_fails.
  rewrite (Float64_of_represented x f V R). reflexivity.
Qed.

Lemma conversion_inverted :
  forall t ctx x f,
    basetypes.Float64Type.ValueFromTerraform t ctx (NewNumber x)
    = Ok (Some (basetypes.as_Value (basetypes.NewFloat64Value f)), None) ->
    math.valid f = true /\ represents f x.
Proof.
  intros t ctx x f H. unfold NewNumber in H.
  rewrite ValueFromTerraform_number in H. unfold narrowing_fails in H.
  destruct (big.Float64 x) as [g acc] eqn:E. cbn [fst snd] in H.
  destruct acc; try discriminate H.
  injection H as <-. apply Float64_Exact. exact E.
Qed.

(** X11: negating the wire number changes neither verdict, and negates the
    float64 that ValueFromTerraform returns. *)
Theorem negation_commutes_with_conversion :
  forall (t : basetypes.Float64Type) (ctx : context.Context) (p : path.Path)
         (x : big.Float),
    (basetypes.Float64Type.Validate t ctx (NewNumber (Float_Neg x)) p = Ok [] <->
     basetypes.Float64Type.Validate t ctx (NewNumber x) p = Ok []) /\
    (forall f,
        basetypes.Float64Type.ValueFromTerraform t ctx (NewNumber x)
        = Ok (Some (basetypes.as_Value (basetypes.NewFloat64Value f)), None) ->
        basetypes.Float64Type.ValueFromTerraform t ctx (NewNumber (Float_Neg x))
        = Ok (Some (basetypes.as_Value
                      (basetypes.NewFloat64Value (math.Neg f))), None)).
Proof.
  intros t ctx p x. split.
  - rewrite !Validate_NewNumber, !narrowing_fails_fits, fits_Neg.
    destruct (fits x); split; intro H; try discriminate H; reflexivity.
  - intros f H. apply conversion_inverted in H. destruct H as [V R].
    apply conversion_of_represented.
    + rewrite valid_Neg. exact V.
    + apply represents_Neg. exact R.
Qed.

Lemma negation_commutes_with_conversion_witness :
  basetypes.Float64Type.ValueFromTerraform basetypes.mkFloat64Type
    context.Background (NewNumber (Float_Neg (big.Ffinite false 3 2)))
  = Ok (Some (basetypes.as_Value
                (basetypes.NewFloat64Value
                   (math.Neg (math.F64finite false 6755399441055744 (-51))))),
        None).
Proof.
  apply (proj2 (negation_commutes_with_conversion basetypes.mkFloat64Type
                  context.Background (path.Root "test")
                  (big.Ffinite false 3 2))
           (math.F64finite false 6755399441055744 (-51))).
  reflexivity.
Defined.

Lemma scaled_equation :
  forall a b e1 e2 c,
    c <= Z.min e1 e2 ->
    (a * 2 ^ (e1 - Z.min e1 e2) = b * 2 ^ (e2 - Z.min e1 e2) <->
     a * 2 ^ (e1 - c) = b * 2 ^ (e2 - c)).
Proof.
  intros a b e1 e2 c H. set (d := Z.min e1 e2 - c).
  assert (P : 2 ^ d <> 0) by (apply Z.pow_nonzero; unfold d; lia).
  replace (e1 - c) with ((e1 - Z.min e1 e2) + d) by (unfold d; lia).
  replace (e2 - c) with ((e2 - Z.min e1 e2) + d) by (unfold d; lia).
  rewrite !Z.pow_add_r, !Z.mul_assoc by (unfold d; lia).
  split; intro E.
  - rewrite E. reflexivity.
  - apply Z.mul_cancel_r in E; assumption.
Qed.

Lemma size_with_zero_bits :
  forall m k, big.size (m * 2 ^ k)%positive = big.size m + Z.pos k.
Proof.
  intros m k. rewrite <- (size_mul_pow2 m (Z.pos k)) by lia.
  f_equal. rewrite <- Pos2Z.inj_pow, <- Pos2Z.inj_mul. reflexivity.
Qed.

Lemma represents_with_zero_bits :
  forall f neg m ex k,
    represents f (big.Ffinite neg (m * 2 ^ k)%positive ex) <->
    represents f (big.Ffinite neg m ex).
Proof.
  intros [s|s| |s mf e] neg m ex k; try reflexivity.
  unfold represents. cbv zeta. rewrite size_with_zero_bits.
  set (e1 := ex - big.size m).
  replace (ex - (big.size m + Z.pos k)) with (e1 - Z.pos k) by (unfold e1; lia).
  rewrite (scaled_equation (Z.pos mf) (Z.pos m) e e1
             (Z.min e (e1 - Z.pos k))) by lia.
  rewrite Pos2Z.inj_mul, Pos2Z.inj_pow.
  assert (E : Z.pos m * 2 ^ Z.pos k * 2 ^ (e1 - Z.pos k - Z.min e (e1 - Z.pos k))
              = Z.pos m * 2 ^ (e1 - Z.min e (e1 - Z.pos k))).
  { rewrite <- Z.mul_assoc, <- Z.pow_add_r by lia. f_equal. f_equal. lia. }
  rewrite E. reflexivity.
Qed.

(** X12: zero bits appended to the mantissa of a wire number, a number of
    the same value held at a higher precision, change neither the verdict of
    Validate nor the float64 that ValueFromTerraform returns. *)
Theorem mantissa_width_is_ignored :
  forall (t : basetypes.Float64Type) (ctx : context.Context) (p : path.Path)
         (neg : bool) (mant : positive) (exp : Z) (k : positive),
    let x := big.Ffinite neg mant exp in
    let wide := big.Ffinite neg (mant * 2 ^ k)%positive exp in
    (basetypes.Float64Type.Validate t ctx (NewNumber wide) p = Ok [] <->
     basetypes.Float64Type.Validate t ctx (NewNumber x) p = Ok []) /\
    (forall f,
        basetypes.Float64Type.ValueFromTerraform t ctx (NewNumber x)
        = Ok (Some (basetypes.as_Value (basetypes.NewFloat64Value f)), None) ->
        basetypes.Float64Type.ValueFromTerraform t ctx (NewNumber wide)
        = Ok (Some (basetypes.as_Value (basetypes.NewFloat64Value f)), None)).
Proof.
  intros t ctx p neg mant exp k x wide. split.
  - rewrite !Validate_NewNumber.
    assert (E : narrowing_fails wide = narrowing_fails x).
    { destruct (narrowing_fails x) eqn:X.
      - apply narrowing_fails_iff. apply narrowing_fails_iff in X.
        intros (f & V & R). apply X. exists f. split; [exact V|].
        apply (represents_with_zero_bits f neg mant exp k). exact R.
      - apply narrowing_succeeds_iff. apply narrowing_succeeds_iff in X.
        destruct X as (f & V & R). exists f. split; [exact V|].
        apply (represents_with_zero_bits f neg mant exp k). exact R. }
    rewrite E.
    destruct (narrowing_fails x); split; intro H; try discriminate H;
      reflexivity.
  - intros f H. apply conversion_inverted in H. destruct H as [V R].
    apply conversion_of_represented; [exact V|].
    apply (represents_with_zero_bits f neg mant exp k). exact R.
Qed.

Lemma mantissa_width_is_ignored_witness :
  basetypes.Float64Type.ValueFromTerraform basetypes.mkFloat64Type
    context.Background (NewNumber (big.Ffinite false (3 * 2 ^ 510) 2))
  = Ok (Some (basetypes.as_Value
                (basetypes.NewFloat64Value
                   (math.F64finite false 6755399441055744 (-51)))),
        None).
Proof.
  apply (proj2 (mantissa_width_is_ignored basetypes.mkFloat64Type
                  context.Background (path.Root "test") false 3 2 510)
           (math.F64finite false 6755399441055744 (-51))).
  reflexivity.
Defined.

(** ** Embedding *)

(** X13: a custom type that embeds Float64Type and declares no Equal of its
    own answers Equal with the promoted method: true exactly for the plain
    Float64Type, hence false for the custom type itself and for every other
    custom type. *)
Theorem promoted_Equal_knows_only_Float64Type :
  forall (ov : basetypes.Overrides basetypes.Float64Type)
         (c : basetypes.Embedding basetypes.Float64Type),
    basetypes.own_Equal ov = None ->
    (forall o,
        @basetypes.Equal _ (basetypes.Custom ov) c o = true <->
        o = Some attr.Float64Type) /\
    (forall name embedded,
        @basetypes.Equal _ (basetypes.Custom ov) c
          (Some (attr.CustomType name embedded)) = false).
Proof.
  intros ov c H. cbn [basetypes.Equal basetypes.Custom]. rewrite H.
  cbn [basetypes.selected basetypes.Equal
       basetypes.Float64Type_Float64Typable].
  split.
  - intros o. unfold basetypes.Float64Type.Equal. split.
    + destruct o as [k|]; [destruct k|]; intro E; try discriminate E;
        reflexivity.
    + intros ->. reflexivity.
  - intros name embedded. reflexivity.
Qed.

Lemma promoted_Equal_knows_only_Float64Type_witness :
  (forall o,
      @basetypes.Equal _ (basetypes.Custom basetypes.no_overrides)
        (basetypes.mkEmbedding basetypes.mkFloat64Type) o = true <->
      o = Some attr.Float64Type) /\
  (forall name embedded,
      @basetypes.Equal _ (basetypes.Custom basetypes.no_overrides)
        (basetypes.mkEmbedding basetypes.mkFloat64Type)
        (Some (attr.CustomType name embedded)) = false).
Proof.
  apply (promoted_Equal_knows_only_Float64Type basetypes.no_overrides
           (basetypes.mkEmbedding basetypes.mkFloat64Type)).
  reflexivity.
Defined.
